(** * Conversational answer resolution and wizard progression

    A shallow embedding of the conversation core of the food-ordering
    backend: [helpers/voice_matcher.py], [helpers/validators.py],
    [services/gemini_service.py], [services/openaiservice_question.py],
    [services/food_suggestion_service.py], [services/conversation_service.py]
    and the routes over them, followed by the properties of these
    functions.

    Conventions of the embedding.
    - A Python [str] is the [string] of its UTF-8 code units. [lower] and
      [strip] act on the code units of the ASCII range: on a text of
      ASCII characters they are [str.lower] and [str.strip]. Python also
      maps letters outside ASCII (the dotless i, the Kelvin sign, ...)
      and strips white space outside ASCII; no statement below relies on
      how such characters are treated: what is said of a change of letter
      case is said of the letters A to Z ([ascii_recased]), and what is
      said of padding is said of ASCII white space ([ascii_padded]).
    - [Optional[T]] is [option T]; Python truthiness is written out
      ([truthy]): [None] and the empty string are both falsy.
    - A similarity score is the exact rational [2*M/T] that
      [SequenceMatcher.ratio] rounds to a binary64 float; the threshold is
      the rational 3/5.
    - The database is a record of tables (lists of rows, in table order);
      a query is a filter over the table, [.first()] its head. Reading a
      table does not fail; the commit and the raw item queries can.
    - A Python exception is the [Raised] branch of [outcome]. *)

From Stdlib Require Import ZArith QArith Ascii String Lia.
From stdpp Require Import base option list sorting strings gmap pretty.

Local Open Scope string_scope.
Local Open Scope Z_scope.

(** ** Python text primitives *)

Module Py.

(** The code units that ASCII [str.isspace] accepts:
    TAB to CR, FS to US, and the space. *)
Definition is_space (c : ascii) : bool :=
  let n := N_of_ascii c in
  ((9 <=? n) && (n <=? 13) || (28 <=? n) && (n <=? 32))%N.

Definition is_upper (c : ascii) : bool :=
  let n := N_of_ascii c in ((65 <=? n) && (n <=? 90))%N.

Definition lower_char (c : ascii) : ascii :=
  if is_upper c then ascii_of_N (N_of_ascii c + 32) else c.

(** [s.lower()], on the letters A to Z. *)
Fixpoint lower (s : string) : string :=
  match s with
  | EmptyString => EmptyString
  | String c s' => String (lower_char c) (lower s')
  end.

Fixpoint lstrip (s : string) : string :=
  match s with
  | EmptyString => EmptyString
  | String c s' => if is_space c then lstrip s' else s
  end.

Fixpoint rstrip (s : string) : string :=
  match s with
  | EmptyString => EmptyString
  | String c s' =>
      match rstrip s' with
      | EmptyString => if is_space c then EmptyString else String c EmptyString
      | r => String c r
      end
  end.

(** [s.strip()], of the white space of [is_space]. *)
Definition strip (s : string) : string := rstrip (lstrip s).

(** [needle in hay] on strings: substring test. *)
Fixpoint contains (needle hay : string) : bool :=
  String.prefix needle hay ||
  match hay with
  | EmptyString => false
  | String _ hay' => contains needle hay'
  end.

(** Truthiness of a [str] and of an [Optional[str]]. *)
Definition truthy_str (s : string) : bool :=
  match s with EmptyString => false | _ => true end.

Definition truthy (o : option string) : bool :=
  match o with Some s => truthy_str s | None => false end.

(** [x or default] on an optional string. *)
Definition or_else (o : option string) (d : string) : string :=
  match o with
  | Some s => if truthy_str s then s else d
  | None => d
  end.

(** [str(x)] inside an f-string, for an optional string. *)
Definition fmt (o : option string) : string :=
  match o with Some s => s | None => "None" end.

(** [seq[:stop]] *)
Definition slice_to {A} (l : list A) (stop : Z) : list A :=
  if 0 <=? stop then take (Z.to_nat stop) l
  else take (Z.to_nat (Z.of_nat (length l) + stop)) l.

Definition newline : string := String (ascii_of_nat 10) EmptyString.
Definition dquote : string := String (ascii_of_nat 34) EmptyString.

(** [sep.join(parts)] *)
Fixpoint join (sep : string) (parts : list string) : string :=
  match parts with
  | [] => ""
  | [p] => p
  | p :: ps => p +:+ sep +:+ join sep ps
  end.

End Py.

(** ** [difflib.SequenceMatcher(None, a, b).ratio()]

    The standard library's matcher with [isjunk=None] and the default
    [autojunk=True], at the level of [find_longest_match],
    [get_matching_blocks] and [ratio]. *)

Module difflib.

Definition Match : Type := (nat * nat * nat)%type.

Section SequenceMatcher.
Variables a b : list ascii.

(** [__chain_b]: positions of every element of [b], then the purge of
    the popular elements when [len(b) >= 200]. No element is junk. *)
Definition b2j_all : gmap ascii (list nat) :=
  foldl (fun (m : gmap ascii (list nat)) '(i, elt) =>
           <[elt := (default [] (m !! elt) ++ [i])%list]> m)
        ∅ (imap (fun i elt => (i, elt)) b).

Definition b2j : gmap ascii (list nat) :=
  let n := length b in
  if (200 <=? n)%nat then
    let ntest := (n / 100 + 1)%nat in
    filter (fun p : ascii * list nat => (length p.2 <= ntest)%nat) b2j_all
  else b2j_all.

Definition bjunk : gset ascii := ∅.

Definition isbjunk (o : option ascii) : bool :=
  match o with Some c => bool_decide (c ∈ bjunk) | None => false end.

Definition same_elt (x y : option ascii) : bool :=
  match x, y with
  | Some c, Some d => bool_decide (c = d)
  | _, _ => false
  end.

Section Range.
Variables alo ahi blo bhi : nat.

(** The loop over [b2j.get(a[i], nothing)]; [j2lenget(j-1, 0)] finds
    nothing at [j = 0], the keys being positions. *)
Fixpoint scan_js (i : nat) (j2len : gmap nat nat) (js : list nat)
    (newj2len : gmap nat nat) (best : Match) : gmap nat nat * Match :=
  match js with
  | [] => (newj2len, best)
  | j :: js' =>
      if (j <? blo)%nat then scan_js i j2len js' newj2len best
      else if (bhi <=? j)%nat then (newj2len, best)
      else
        let k := (match j with O => 0 | S j' => default 0 (j2len !! j') end + 1)%nat in
        let best' := if (best.2 <? k)%nat then ((i + 1 - k)%nat, (j + 1 - k)%nat, k) else best in
        scan_js i j2len js' (<[j := k]> newj2len) best'
  end.

(** The loop [for i in range(alo, ahi)], over the list of its indices. *)
Fixpoint scan_is (is_ : list nat) (j2len : gmap nat nat) (best : Match) : Match :=
  match is_ with
  | [] => best
  | i :: is' =>
      let js := match a !! i with
                | Some c => default [] (b2j !! c)
                | None => []
                end in
      let '(newj2len, best') := scan_js i j2len js ∅ best in
      scan_is is' newj2len best'
  end.

(** The two [while] loops that extend a match to the left and to the
    right over elements whose junk status is [junk]; each runs at
    most [fuel] times, [fuel] being the room left in [a]. *)
Fixpoint extend_left (junk : bool) (fuel : nat) (best : Match) : Match :=
  match fuel with
  | O => best
  | S fuel' =>
      let '(besti, bestj, bestsize) := best in
      if (alo <? besti)%nat && (blo <? bestj)%nat
         && Bool.eqb (isbjunk (b !! (bestj - 1)%nat)) junk
         && same_elt (a !! (besti - 1)%nat) (b !! (bestj - 1)%nat)
      then extend_left junk fuel' ((besti - 1)%nat, (bestj - 1)%nat, (bestsize + 1)%nat)
      else best
  end.

Fixpoint extend_right (junk : bool) (fuel : nat) (best : Match) : Match :=
  match fuel with
  | O => best
  | S fuel' =>
      let '(besti, bestj, bestsize) := best in
      if (besti + bestsize <? ahi)%nat && (bestj + bestsize <? bhi)%nat
         && Bool.eqb (isbjunk (b !! (bestj + bestsize)%nat)) junk
         && same_elt (a !! (besti + bestsize)%nat) (b !! (bestj + bestsize)%nat)
      then extend_right junk fuel' (besti, bestj, (bestsize + 1)%nat)
      else best
  end.

Definition find_longest_match : Match :=
  let m0 := scan_is (seq alo (ahi - alo)) ∅ (alo, blo, O) in
  let m1 := extend_left false m0.1.1 m0 in
  let m2 := extend_right false (ahi - (m1.1.1 + m1.2)) m1 in
  let m3 := extend_left true m2.1.1 m2 in
  extend_right true (ahi - (m3.1.1 + m3.2)) m3.
End Range.

(** [get_matching_blocks], as the total size of the blocks it finds:
    the block found in a range, then the ranges to its left and to its
    right. Every recursive range is strictly shorter in [a], which
    [fuel] counts. *)
Fixpoint matched_size (fuel : nat) (alo ahi blo bhi : nat) : nat :=
  match fuel with
  | O => O
  | S fuel' =>
      let '(i, j, k) := find_longest_match alo ahi blo bhi in
      if (k =? 0)%nat then O
      else
        (k
         + (if (alo <? i)%nat && (blo <? j)%nat
            then matched_size fuel' alo i blo j else 0)
         + (if (i + k <? ahi)%nat && (j + k <? bhi)%nat
            then matched_size fuel' (i + k) ahi (j + k) bhi else 0))%nat
  end.

Definition matches : nat :=
  matched_size (S (length a)) 0 (length a) 0 (length b).

(** [_calculate_ratio(matches, len(a) + len(b))] *)
Definition ratio : Q :=
  match Z.of_nat (length a + length b) with
  | Zpos len => Qmake (2 * Z.of_nat matches) len
  | _ => 1%Q
  end.
End SequenceMatcher.

Definition SequenceMatcher_ratio (s1 s2 : string) : Q :=
  ratio (list_ascii_of_string s1) (list_ascii_of_string s2).

End difflib.

(** ** Data model ([models/conversation.py]) *)

Module QuestionMaster.
Record t := {
  id : Z;
  question_key : string;
  question_text : string;
  question_order : Z;
  type : option string;
  is_active : bool
}.
End QuestionMaster.

Module AnswerMaster.
Record t := {
  id : Z;
  answer_key : string;
  question_key : string;
  answer_text : string;
  answer_order : option Z;
  is_active : bool
}.
End AnswerMaster.

Module Session.
Record t := {
  id : string;
  user_id : option string;
  language : string;
  input_type : option string
}.
End Session.

Module ConversationEntry.
Record t := {
  id : Z;
  session_id : option string;
  user_id : option Z;
  question_key : string;
  answer_key : option string;
  custom_input : option string;
  response_text : option string;
  select_type : option string;
  created_at : Z
}.
End ConversationEntry.

(** The tables the core reads and writes. *)
Record Db := {
  question_masters : list QuestionMaster.t;
  answer_masters : list AnswerMaster.t;
  sessions : list Session.t;
  conversation_entries : list ConversationEntry.t
}.

(** ** [helpers/validators.py] *)

(** The rows selected by
    [filter(question_key == k, is_active == True)] on either table. *)
Definition active_question (k : string) (q : QuestionMaster.t) : Prop :=
  QuestionMaster.question_key q = k ∧ QuestionMaster.is_active q = true.

Definition active_answer_of (question_key : string) (a : AnswerMaster.t) : Prop :=
  AnswerMaster.question_key a = question_key ∧ AnswerMaster.is_active a = true.

Definition validate_question_key (db : Db) (question_key : string) : bool :=
  match head (filter (active_question question_key) (question_masters db)) with
  | Some _ => true
  | None => false
  end.

Definition validate_answer_key (db : Db) (answer_key question_key : string) : bool :=
  match head (filter (fun a => AnswerMaster.answer_key a = answer_key
                               ∧ active_answer_of question_key a)
                     (answer_masters db)) with
  | Some _ => true
  | None => false
  end.

Definition get_question_with_answers (db : Db) (question_key : string)
    : option QuestionMaster.t :=
  head (filter (active_question question_key) (question_masters db)).

(** One [{"answer_key": .., "answer_text": ..}] dictionary. *)
Record AnswerOption := {
  opt_answer_key : string;
  opt_answer_text : string
}.

Definition get_active_answers_for_question (db : Db) (question_key : string)
    : list AnswerOption :=
  let answers := filter (active_answer_of question_key) (answer_masters db) in
  (fun answer => {| opt_answer_key := AnswerMaster.answer_key answer;
                    opt_answer_text := AnswerMaster.answer_text answer |}) <$> answers.

(** ** [helpers/voice_matcher.py] *)

Definition calculate_similarity (text1 text2 : string) : Q :=
  let text1 := Py.strip (Py.lower text1) in
  let text2 := Py.strip (Py.lower text2) in
  difflib.SequenceMatcher_ratio text1 text2.

(** The dictionary of variations, in the order of its literal, which is
    the order [variation_map.items()] yields. *)
Definition variation_map : list (string * list string) :=
  [ ("vegetarian", ["veg"; "veggie"; "vegetarian"; "pure veg"]);
    ("non-vegetarian", ["non veg"; "non-veg"; "nonveg"; "meat"]);
    ("vegan", ["vegan"; "plant based"; "no dairy"]);
    ("chinese", ["chinese"; "chinese food"; "indo chinese"]);
    ("italian", ["italian"; "pasta"; "pizza"]);
    ("mexican", ["mexican"; "tex mex"; "tacos"]);
    ("japanese", ["japanese"; "sushi"; "ramen"]);
    ("hungry", ["hungry"; "very hungry"; "starving"]);
    ("just snacking", ["snacking"; "snack"; "light bite"]);
    ("super hungry", ["super hungry"; "very hungry"; "famished"; "starving"]) ].

Definition get_common_variations (answer_text : string) : list string :=
  let answer_lower := Py.lower answer_text in
  foldl (fun variations '(key, values) =>
           if Py.contains key answer_lower then (variations ++ values)%list
           else variations)
        [] variation_map.

(** Comparisons of scores, and the two-argument [max], which keeps its
    first argument unless the second is strictly greater. *)
Definition Qltb (x y : Q) : bool := negb (Qle_bool y x).

Definition py_max (x y : Q) : Q := if Qltb x y then y else x.

(** The score of one answer: its text, then each of its variations. *)
Definition answer_score (voice_text : string) (answer : AnswerMaster.t) : Q :=
  let score := calculate_similarity voice_text (AnswerMaster.answer_text answer) in
  let variations := get_common_variations (AnswerMaster.answer_text answer) in
  foldl (fun score variation =>
           let variation_score := calculate_similarity voice_text variation in
           py_max score variation_score)
        score variations.

(** One iteration of [for answer in answers], on the pair
    [(best_match, best_score)]. *)
Definition match_step (voice_text : string) (threshold : Q)
    (best : option string * Q) (answer : AnswerMaster.t) : option string * Q :=
  let score := answer_score voice_text answer in
  if Qltb best.2 score && Qle_bool threshold score
  then (Some (AnswerMaster.answer_key answer), score)
  else best.

Definition default_threshold : Q := 3 # 5.

Definition match_voice_to_answer (db : Db) (voice_text question_key : string)
    (threshold : Q) : option string :=
  let answers := filter (active_answer_of question_key) (answer_masters db) in
  match answers with
  | [] => None
  | _ => (foldl (match_step voice_text threshold) (None, 0%Q) answers).1
  end.

(** ** Exceptions and the outside world *)

Inductive exn :=
| ValueError (msg : string)
| AttributeError (msg : string)
| Exception (msg : string).

(** [str(e)] *)
Definition str_exn (e : exn) : string :=
  match e with
  | ValueError msg | AttributeError msg | Exception msg => msg
  end.

Inductive outcome (A : Type) :=
| Returned (a : A)
| Raised (e : exn).
Arguments Returned {A} a.
Arguments Raised {A} e.

(** Sequencing: the first exception raised ends the block. *)
Definition ret {A} (a : A) : outcome A := Returned a.

Definition bind {A B} (m : outcome A) (f : A -> outcome B) : outcome B :=
  match m with
  | Returned a => f a
  | Raised e => Raised e
  end.

Notation "x <- m ; k" := (bind m (fun x => k))
  (at level 20, m at level 100, k at level 200, only parsing).

(** [try: body / except Exception as e: handler e] *)
Definition try_except {A} (body : outcome A) (handler : exn -> outcome A) : outcome A :=
  match body with
  | Returned a => Returned a
  | Raised e => handler e
  end.

(** A numeric column value as the code observes it: its [str()] and its
    truth value. *)
Record Number := {
  num_str : string;
  num_truthy : bool
}.

(** One row of [SELECT DISTINCT item_name, item_description, price, category]. *)
Record Row := {
  row0 : option string;
  row1 : option string;
  row2 : option Number;
  row3 : option string
}.

(** The three item queries of the suggestion service, by their [FROM]. *)
Inductive ItemQuery := order_items | cart_items | all_items.

(** The second language model and its environment variable. *)
Record OpenAI := {
  OPENAI_API_KEY : option string;
  (** [client.chat.completions.create(..)] followed by
      [response.choices[0].message.content] *)
  chat_completion : string -> outcome string
}.

(** What the core does not compute itself: the environment variables, the
    language models, the item tables reached through raw SQL, the commit
    of the storage session and the clock. *)
Record World := {
  openai : OpenAI;
  GEMINI_API_KEY : option string;
  (** [self.model.generate_content(prompt)] followed by [response.text] *)
  generate_content : string -> outcome string;
  (** [self.db.execute(query, {"diet_value": .., "limit": ..})] *)
  execute : ItemQuery -> string -> Z -> outcome (list Row);
  (** [db.add(db_entry); db.commit(); db.refresh(db_entry)]:
      [None] when the three succeed *)
  commit_error : ConversationEntry.t -> option exn;
  (** [datetime.now()] *)
  now : Z
}.

(** ** [app/schemas/conversation.py] *)

Module ConversationEntryCreate.
Record t := {
  session_id : option string;
  user_id : option Z;
  question_key : string;
  answer_key : option string;
  custom_input : option string;
  responseText : option string;
  select_type : string
}.

(** The [pre=True] validators of [answer_key] and [responseText]. *)
Definition convert_null_string (v : option string) : option string :=
  match v with
  | Some s => if bool_decide (s = "null" ∨ s = "NULL") then None else Some s
  | None => None
  end.

(** The constructor call, which runs the validators. *)
Definition new (session_id : option string) (user_id : option Z)
    (question_key : string) (answer_key custom_input responseText : option string)
    (select_type : string) : t :=
  {| session_id := session_id;
     user_id := user_id;
     question_key := question_key;
     answer_key := convert_null_string answer_key;
     custom_input := custom_input;
     responseText := convert_null_string responseText;
     select_type := select_type |}.

Definition set_answer_key (e : t) (v : option string) : t :=
  {| session_id := session_id e; user_id := user_id e;
     question_key := question_key e; answer_key := v;
     custom_input := custom_input e; responseText := responseText e;
     select_type := select_type e |}.

Definition set_responseText (e : t) (v : option string) : t :=
  {| session_id := session_id e; user_id := user_id e;
     question_key := question_key e; answer_key := answer_key e;
     custom_input := custom_input e; responseText := v;
     select_type := select_type e |}.
End ConversationEntryCreate.

Module ConversationEntryResponse.
Record t := {
  id : Z;
  session_id : option string;
  user_id : option Z;
  question_key : string;
  answer_key : option string;
  custom_input : option string;
  responseText : option string;
  created_at : Z
}.

(** [from_orm]: every field is read from the attribute of its name; the
    row has [response_text] and no [responseText], so that field takes
    its default. *)
Definition from_orm (e : ConversationEntry.t) : t :=
  {| id := ConversationEntry.id e;
     session_id := ConversationEntry.session_id e;
     user_id := ConversationEntry.user_id e;
     question_key := ConversationEntry.question_key e;
     answer_key := ConversationEntry.answer_key e;
     custom_input := ConversationEntry.custom_input e;
     responseText := None;
     created_at := ConversationEntry.created_at e |}.
End ConversationEntryResponse.

Definition SORRY_DONT_UNDERSTAND : string := "SORRY_DONT_UNDERSTAND".
Definition SUGGESTION_REQUEST : string := "SUGGESTION_REQUEST".

(** ** [services/gemini_service.py] *)

Module GeminiAnalyzer.
Section Analyzer.
Variable W : World.

(** [__init__] *)
Definition init : outcome unit :=
  if Py.truthy (GEMINI_API_KEY W) then Returned tt
  else Raised (ValueError "GEMINI_API_KEY not found in environment variables").

Definition answer_options (available_answers : list AnswerOption) : string :=
  Py.join Py.newline
    ((fun ans => "- " +:+ opt_answer_key ans +:+ ": " +:+ opt_answer_text ans)
       <$> available_answers).

Definition prompt (user_text : option string)
    (available_answers : list AnswerOption) : string :=
  "You are an intelligent assistant that categorizes user responses into predefined categories.

Given the user's message, determine which category it best fits into.

User Message: " +:+ Py.dquote +:+ Py.fmt user_text +:+ Py.dquote +:+ "

Available Categories:
" +:+ answer_options available_answers +:+ "

Instructions:
1. Analyze the user's message carefully
2. Match it with the most appropriate category from the list
3. Return ONLY the category key (answer_key), nothing else
4. If the user is asking for suggestions, recommendations, or general questions (not selecting a category), return "
  +:+ Py.dquote +:+ "SUGGESTION_REQUEST" +:+ Py.dquote +:+ "
5. If no category matches well and it's not a suggestion request, return "
  +:+ Py.dquote +:+ "NONE" +:+ Py.dquote +:+ "

Response:".

(** The validation of the stripped model text against the options. *)
Definition validate_answer (answer : string)
    (available_answers : list AnswerOption) : string :=
  let valid_keys := opt_answer_key <$> available_answers in
  if bool_decide (answer ∈ valid_keys) then answer
  else if bool_decide (answer = "NONE") then SORRY_DONT_UNDERSTAND
  else if bool_decide (answer = "SUGGESTION_REQUEST") then SUGGESTION_REQUEST
  else SORRY_DONT_UNDERSTAND.

Definition analyze_user_response (user_text : option string)
    (question_key : string) (available_answers : list AnswerOption)
    : option string :=
  match available_answers with
  | [] => None
  | _ =>
      match generate_content W (prompt user_text available_answers) with
      | Returned text => Some (validate_answer (Py.strip text) available_answers)
      | Raised _ => None
      end
  end.
End Analyzer.
End GeminiAnalyzer.

(** ** [services/openaiservice_question.py] *)

Module OpenAIAnalyzer.
Section Analyzer.
Variable O : OpenAI.

(** [__init__] *)
Definition init : outcome unit :=
  if Py.truthy (OPENAI_API_KEY O) then Returned tt
  else Raised (ValueError "OPENAI_API_KEY not found in environment variables").

Definition prompt (user_text : option string)
    (available_answers : list AnswerOption) : string :=
  "You are an intelligent assistant that categorizes user responses into predefined categories.

Given the user's message, determine which category it best fits into.

User Message: " +:+ Py.dquote +:+ Py.fmt user_text +:+ Py.dquote +:+ "

Available Categories:
" +:+ GeminiAnalyzer.answer_options available_answers +:+ "

Instructions:
1. Analyze the user's message carefully
2. Match it with the most appropriate category from the list
3. Return ONLY the category key (answer_key), nothing else
4. If no category matches well, return "
  +:+ Py.dquote +:+ "NONE" +:+ Py.dquote +:+ "

Response:".

Definition analyze_user_response (user_text : option string)
    (question_key : string) (available_answers : list AnswerOption)
    : option string :=
  match available_answers with
  | [] => None
  | _ =>
      match chat_completion O (prompt user_text available_answers) with
      | Returned content =>
          let answer := Py.strip content in
          let valid_keys := opt_answer_key <$> available_answers in
          if bool_decide (answer ∈ valid_keys) then Some answer
          else if bool_decide (answer = "NONE") then None
          else None
      | Raised _ => None
      end
  end.
End Analyzer.
End OpenAIAnalyzer.

(** ** The Recorder: [ConversationService.create_conversation_entry] *)

Definition add_entry (db : Db) (e : ConversationEntry.t) : Db :=
  {| question_masters := question_masters db;
     answer_masters := answer_masters db;
     sessions := sessions db;
     conversation_entries := (conversation_entries db ++ [e])%list |}.

(** The autoincrement key of the next row of the append-only table. *)
Definition next_id (db : Db) : Z :=
  Z.of_nat (length (conversation_entries db)) + 1.

Section Recorder.
Variable W : World.

(** [if entry_data.answer_key: if not validate_answer_key(..): .. = None] *)
Definition checked_answer_key (db : Db) (entry_data : ConversationEntryCreate.t)
    : option string :=
  match ConversationEntryCreate.answer_key entry_data with
  | Some k =>
      if Py.truthy_str k then
        if validate_answer_key db k (ConversationEntryCreate.question_key entry_data)
        then Some k else None
      else Some k
  | None => None
  end.

(** The row built from [entry_dict]: [response_text] is absent from the
    dictionary, so it is [responseText] when that is truthy. *)
Definition entry_row (db : Db) (entry_data : ConversationEntryCreate.t)
    : ConversationEntry.t :=
  let responseText := ConversationEntryCreate.responseText entry_data in
  {| ConversationEntry.id := next_id db;
     ConversationEntry.session_id := ConversationEntryCreate.session_id entry_data;
     ConversationEntry.user_id := ConversationEntryCreate.user_id entry_data;
     ConversationEntry.question_key := ConversationEntryCreate.question_key entry_data;
     ConversationEntry.answer_key := checked_answer_key db entry_data;
     ConversationEntry.custom_input := ConversationEntryCreate.custom_input entry_data;
     ConversationEntry.response_text :=
       if Py.truthy responseText then responseText else None;
     ConversationEntry.select_type := Some (ConversationEntryCreate.select_type entry_data);
     ConversationEntry.created_at := now W |}.

(** The method from its first statement, [ai_analyzer = OpenAIAnalyzer()],
    whose failure leaves the method before anything is read or written. *)
Definition create_conversation_entry (db : Db) (entry_data : ConversationEntryCreate.t)
    : outcome ConversationEntryResponse.t * Db :=
  match OpenAIAnalyzer.init (openai W) with
  | Raised e => (Raised e, db)
  | Returned ai_analyzer =>
      let question_key := ConversationEntryCreate.question_key entry_data in
      if negb (validate_question_key db question_key) then
        (Raised (ValueError ("Invalid question key: " +:+ question_key)), db)
      else
        let db_entry := entry_row db entry_data in
        match commit_error W db_entry with
        | None =>
            (Returned (ConversationEntryResponse.from_orm db_entry), add_entry db db_entry)
        | Some e =>
            (* db.rollback() *)
            (Raised (ValueError ("Failed to create conversation entry: " +:+ str_exn e)), db)
        end
  end.
End Recorder.

(** ** [services/food_suggestion_service.py] *)

(** One suggestion dictionary. *)
Record Suggestion := {
  item_name : string;
  description : string;
  price : string;
  category : string;
  source : string
}.

Module FoodSuggestionService.

Definition diet_mapping : gmap string string :=
  {[ "veg" := "vegetarian"; "non-veg" := "non-vegetarian"; "vegan" := "vegan" ]}.

(** The dictionary appended for one row of a result. *)
Definition suggestion_of_row (source : string) (row : Row) : Suggestion :=
  {| item_name := Py.or_else (row0 row) "Unknown Item";
     description := Py.or_else (row1 row) "Delicious food item";
     price := match row2 row with
              | Some n => if num_truthy n then "$" +:+ num_str n else "Price on request"
              | None => "Price on request"
              end;
     category := Py.or_else (row3 row) "Food";
     source := source |}.

Definition fallback_suggestions : gmap string (list Suggestion) :=
  {[ "veg" :=
       [ {| item_name := "Vegetable Pizza"; description := "Fresh vegetables on crispy crust";
            price := "$12.99"; category := "Pizza"; source := "Fallback" |};
         {| item_name := "Caesar Salad"; description := "Fresh lettuce with vegetarian dressing";
            price := "$8.99"; category := "Salad"; source := "Fallback" |};
         {| item_name := "Pasta Primavera"; description := "Mixed vegetables with pasta";
            price := "$14.99"; category := "Pasta"; source := "Fallback" |} ];
     "non-veg" :=
       [ {| item_name := "Chicken Burger"; description := "Juicy chicken patty with fresh vegetables";
            price := "$11.99"; category := "Burger"; source := "Fallback" |};
         {| item_name := "Beef Steak"; description := "Tender beef steak cooked to perfection";
            price := "$24.99"; category := "Main Course"; source := "Fallback" |};
         {| item_name := "Fish & Chips"; description := "Crispy fish with golden fries";
            price := "$16.99"; category := "Seafood"; source := "Fallback" |} ];
     "vegan" :=
       [ {| item_name := "Vegan Buddha Bowl"; description := "Quinoa, vegetables, and tahini dressing";
            price := "$13.99"; category := "Bowl"; source := "Fallback" |};
         {| item_name := "Vegan Tacos"; description := "Plant-based protein with fresh vegetables";
            price := "$10.99"; category := "Mexican"; source := "Fallback" |};
         {| item_name := "Vegan Smoothie"; description := "Mixed fruits and plant-based milk";
            price := "$6.99"; category := "Beverage"; source := "Fallback" |} ] ]}.

Definition _get_fallback_suggestions (dietary_preference : string) : list Suggestion :=
  default (default [] (fallback_suggestions !! "veg"))
          (fallback_suggestions !! Py.lower dietary_preference).

Section Service.
Variable W : World.

(** The three readers share their body up to the table and the label
    of [source]; each catches every exception of its body. *)
Definition read_items (q : ItemQuery) (source : string)
    (diet_value : string) (limit : Z) : outcome (list Suggestion) :=
  try_except
    (result <- execute W q diet_value limit ;
     ret (suggestion_of_row source <$> result))
    (fun _ => ret []).

Definition _get_suggestions_from_orders := read_items order_items "Popular Orders".
Definition _get_suggestions_from_cart := read_items cart_items "Cart Items".
Definition _get_general_suggestions := read_items all_items "General".

Definition get_suggestions_by_dietary_preference (dietary_preference : string)
    (limit : Z) : outcome (list Suggestion) :=
  let diet_value :=
    default "vegetarian" (diet_mapping !! Py.lower dietary_preference) in
  try_except
    (suggestions <- _get_suggestions_from_orders diet_value limit ;
     suggestions <-
       (if Z.of_nat (length suggestions) <? limit then
          cart_suggestions <-
            _get_suggestions_from_cart diet_value (limit - Z.of_nat (length suggestions)) ;
          ret (suggestions ++ cart_suggestions)%list
        else ret suggestions) ;
     suggestions <-
       (if Z.of_nat (length suggestions) <? limit then
          general_suggestions <-
            _get_general_suggestions diet_value (limit - Z.of_nat (length suggestions)) ;
          ret (suggestions ++ general_suggestions)%list
        else ret suggestions) ;
     ret (Py.slice_to suggestions limit))
    (fun _ => ret (_get_fallback_suggestions dietary_preference)).
End Service.

(** The four lines appended for item number [i]. *)
Definition item_lines (i : nat) (suggestion : Suggestion) : string :=
  pretty i +:+ ". **" +:+ item_name suggestion +:+ "**" +:+ Py.newline
  +:+ "   " +:+ description suggestion +:+ Py.newline
  +:+ "   Price: " +:+ price suggestion +:+ Py.newline
  +:+ "   Category: " +:+ category suggestion +:+ Py.newline +:+ Py.newline.

(** [for i, suggestion in enumerate(suggestions, 1): response += ..] *)
Definition append_items (response : string) (suggestions : list Suggestion) : string :=
  foldl (fun response '(i, suggestion) => response +:+ item_lines i suggestion)
        response (imap (fun i suggestion => (S i, suggestion)) suggestions).

Definition format_suggestions_response (suggestions : list Suggestion)
    (dietary_preference : string) : string :=
  match suggestions with
  | [] => "Sorry, I couldn't find any " +:+ dietary_preference
          +:+ " food suggestions at the moment. Please try again later."
  | _ =>
      let response := "Here are some great " +:+ dietary_preference
                      +:+ " food suggestions for you:" +:+ Py.newline +:+ Py.newline in
      append_items response suggestions
      +:+ "Would you like to know more about any of these items or need different suggestions?"
  end.

Record Messages := {
  intro : string;
  fallback : string;
  follow_up : string
}.

Definition language_messages (dietary_preference : string) : gmap string Messages :=
  {[ "en" :=
       {| intro := "Here are some great " +:+ dietary_preference +:+ " food suggestions for you:";
          fallback := "Sorry, I couldn't find any " +:+ dietary_preference
                      +:+ " food suggestions at the moment. Please try again later.";
          follow_up := "Would you like to know more about any of these items or need different suggestions?" |};
     "es" :=
       {| intro := "Aquí tienes algunas excelentes sugerencias de comida " +:+ dietary_preference
                   +:+ " para ti:";
          fallback := "Lo siento, no pude encontrar sugerencias de comida " +:+ dietary_preference
                      +:+ " en este momento. Por favor, inténtalo de nuevo más tarde.";
          follow_up := "¿Te gustaría saber más sobre alguno de estos artículos o necesitas sugerencias diferentes?" |};
     "fr" :=
       {| intro := "Voici quelques excellentes suggestions de nourriture " +:+ dietary_preference
                   +:+ " pour vous:";
          fallback := "Désolé, je n'ai pas pu trouver de suggestions de nourriture "
                      +:+ dietary_preference +:+ " pour le moment. Veuillez réessayer plus tard.";
          follow_up := "Aimeriez-vous en savoir plus sur l'un de ces articles ou avez-vous besoin de suggestions différentes?" |};
     "hi" :=
       {| intro := "यहाँ आपके लिए कुछ बेहतरीन " +:+ dietary_preference +:+ " भोजन सुझाव हैं:";
          fallback := "क्षमा करें, मैं इस समय कोई " +:+ dietary_preference
                      +:+ " भोजन सुझाव नहीं खोज सका। कृपया बाद में पुनः प्रयास करें।";
          follow_up := "क्या आप इनमें से किसी आइटम के बारे में अधिक जानना चाहेंगे या आपको अलग सुझाव चाहिए?" |} ]}.

Definition default_messages (dietary_preference : string) : Messages :=
  default {| intro := ""; fallback := ""; follow_up := "" |}
          (language_messages dietary_preference !! "en").

Definition format_suggestions_response_with_language (suggestions : list Suggestion)
    (dietary_preference language : string) : string :=
  let messages :=
    default (default_messages dietary_preference)
            (language_messages dietary_preference !! language) in
  match suggestions with
  | [] => fallback messages
  | _ =>
      let response := intro messages +:+ Py.newline +:+ Py.newline in
      append_items response suggestions +:+ follow_up messages
  end.

End FoodSuggestionService.

(** ** [services/conversation_service.py]: the coordinator *)

(** The dictionary [process_voice_answer] returns. *)
Record VoiceResult := {
  conversation_entry : ConversationEntryResponse.t;
  matched : bool;
  matched_answer_key : option string;
  voice_text : option string;
  user_language : string
}.

Definition sorry_message : string :=
  "Sorry, I don't understand your request. Could you please rephrase or select from the available options?".

Definition suggestions_unavailable : string :=
  "Sorry, I couldn't get food suggestions at the moment. Please try again later.".

(** [user_text.lower()] and the keyword scan that follows it. *)
Definition _extract_dietary_preference (user_text : option string) : outcome string :=
  match user_text with
  | None => Raised (AttributeError "'NoneType' object has no attribute 'lower'")
  | Some user_text =>
      let user_text_lower := Py.lower user_text in
      if Py.contains "vegan" user_text_lower then ret "vegan"
      else if Py.contains "non-veg" user_text_lower
              || Py.contains "non veg" user_text_lower
              || Py.contains "nonvegetarian" user_text_lower then ret "non-veg"
      else if Py.contains "veg" user_text_lower
              || Py.contains "vegetarian" user_text_lower then ret "veg"
      else ret "veg"
  end.

(** [db.query(Session).filter(Session.id == session_id).first()], then the
    language of the row when it has one. *)
Definition get_user_language (db : Db) (session_id : option string) : string :=
  match head (filter (fun s => Some (Session.id s) = session_id) (sessions db)) with
  | Some session =>
      if Py.truthy_str (Session.language session) then Session.language session else "en"
  | None => "en"
  end.

(** [order_by(QuestionMaster.question_order)]: a sort on the rank. *)
Definition order_le (q1 q2 : QuestionMaster.t) : Prop :=
  QuestionMaster.question_order q1 <= QuestionMaster.question_order q2.

Global Instance order_le_dec : RelDecision order_le.
Proof. intros q1 q2. unfold order_le. apply _. Defined.

Definition order_by_question_order (l : list QuestionMaster.t) : list QuestionMaster.t :=
  merge_sort order_le l.

Definition get_next_question (db : Db) (session_id : string)
    (current_question_key : option string) : option QuestionMaster.t :=
  if Py.truthy current_question_key then
    let current_question :=
      head (filter (fun q => Some (QuestionMaster.question_key q) = current_question_key)
                   (question_masters db)) in
    match current_question with
    | Some current_question =>
        head (order_by_question_order
                (filter (fun q => QuestionMaster.question_order current_question
                                  < QuestionMaster.question_order q
                                  ∧ QuestionMaster.is_active q = true)
                        (question_masters db)))
    | None => None
    end
  else
    head (order_by_question_order
            (filter (fun q => QuestionMaster.is_active q = true) (question_masters db))).

Section ConversationService.
Variable W : World.

Definition _handle_sorry_response (entry_data : ConversationEntryCreate.t)
    : ConversationEntryResponse.t :=
  {| ConversationEntryResponse.id := 0;
     ConversationEntryResponse.session_id := ConversationEntryCreate.session_id entry_data;
     ConversationEntryResponse.user_id := ConversationEntryCreate.user_id entry_data;
     ConversationEntryResponse.question_key := ConversationEntryCreate.question_key entry_data;
     ConversationEntryResponse.answer_key := Some SORRY_DONT_UNDERSTAND;
     ConversationEntryResponse.custom_input := ConversationEntryCreate.custom_input entry_data;
     ConversationEntryResponse.responseText := Some sorry_message;
     ConversationEntryResponse.created_at := now W |}.

Definition _handle_suggestion_request (db : Db)
    (entry_data : ConversationEntryCreate.t) (user_text : option string)
    : outcome ConversationEntryResponse.t :=
  try_except
    (dietary_preference <- _extract_dietary_preference user_text ;
     suggestions <-
       FoodSuggestionService.get_suggestions_by_dietary_preference W dietary_preference 5 ;
     let suggestion_response :=
       FoodSuggestionService.format_suggestions_response suggestions dietary_preference in
     ret {| ConversationEntryResponse.id := 0;
            ConversationEntryResponse.session_id := ConversationEntryCreate.session_id entry_data;
            ConversationEntryResponse.user_id := ConversationEntryCreate.user_id entry_data;
            ConversationEntryResponse.question_key :=
              ConversationEntryCreate.question_key entry_data;
            ConversationEntryResponse.answer_key := Some SUGGESTION_REQUEST;
            ConversationEntryResponse.custom_input :=
              ConversationEntryCreate.custom_input entry_data;
            ConversationEntryResponse.responseText := Some suggestion_response;
            ConversationEntryResponse.created_at := now W |})
    (fun _ => ret (_handle_sorry_response entry_data)).

Definition get_food_suggestions (db : Db) (user_text : option string)
    (user_language : string) : outcome string :=
  try_except
    (dietary_preference <- _extract_dietary_preference user_text ;
     suggestions <-
       FoodSuggestionService.get_suggestions_by_dietary_preference W dietary_preference 5 ;
     ret (FoodSuggestionService.format_suggestions_response_with_language
            suggestions dietary_preference user_language))
    (fun _ => ret suggestions_unavailable).

(** The [try] block of [process_select_answer] and the value of
    [answer_key] it leaves, [answer_key] being the key the caller sent. *)
Definition select_answer_key (db : Db) (question_key : string)
    (answer_key response_text : option string) : outcome (option string) :=
  if Py.truthy response_text then
    try_except
      (_ <- GeminiAnalyzer.init W ;
       let available_answers := get_active_answers_for_question db question_key in
       match available_answers with
       | [] => ret answer_key
       | _ =>
           let ai_matched_answer :=
             GeminiAnalyzer.analyze_user_response W response_text question_key
               available_answers in
           if bool_decide (ai_matched_answer = Some SORRY_DONT_UNDERSTAND)
           then ret (Some SORRY_DONT_UNDERSTAND)
           else if bool_decide (ai_matched_answer = Some SUGGESTION_REQUEST)
           then ret (Some SUGGESTION_REQUEST)
           else if Py.truthy ai_matched_answer
                   && bool_decide (ai_matched_answer ∉
                                     [Some SORRY_DONT_UNDERSTAND; Some SUGGESTION_REQUEST])
           then ret ai_matched_answer
           else ret answer_key
       end)
      (fun _ => ret answer_key)
  else ret answer_key.

Definition process_select_answer (db : Db) (session_id : option string)
    (user_id : option Z) (question_key : string)
    (answer_key response_text : option string)
    : outcome ConversationEntryResponse.t * Db :=
  match select_answer_key db question_key answer_key response_text with
  | Raised e => (Raised e, db)
  | Returned answer_key =>
      let entry_data :=
        ConversationEntryCreate.new session_id user_id question_key answer_key
          None response_text "select" in
      let user_language := get_user_language db session_id in
      if bool_decide (answer_key = Some SORRY_DONT_UNDERSTAND) then
        (ret (_handle_sorry_response entry_data), db)
      else if bool_decide (answer_key = Some SUGGESTION_REQUEST) then
        (_handle_suggestion_request db entry_data response_text, db)
      else
        create_conversation_entry W db entry_data
  end.

(** The [try] block of [process_voice_answer] and the value of
    [matched_answer_key] it leaves. *)
Definition voice_answer_key (db : Db) (question_key : string)
    (voice_text : option string) : outcome (option string) :=
  try_except
    (_ <- GeminiAnalyzer.init W ;
     let available_answers := get_active_answers_for_question db question_key in
     match available_answers with
     | [] => ret None
     | _ =>
         ret (GeminiAnalyzer.analyze_user_response W voice_text question_key
                available_answers)
     end)
    (fun _ => ret None).

Definition process_voice_answer (db : Db) (session_id : option string)
    (user_id : option Z) (question_key : string)
    (voice_text response_text : option string)
    : outcome VoiceResult * Db :=
  match voice_answer_key db question_key voice_text with
  | Raised e => (Raised e, db)
  | Returned matched_answer_key =>
      let entry_data :=
        ConversationEntryCreate.new session_id user_id question_key matched_answer_key
          voice_text response_text "voice" in
      let user_language := get_user_language db session_id in
      let '(conversation_entry, db') :=
        if bool_decide (matched_answer_key = Some SORRY_DONT_UNDERSTAND) then
          (ret (_handle_sorry_response entry_data), db)
        else if bool_decide (matched_answer_key = Some SUGGESTION_REQUEST) then
          match get_food_suggestions db voice_text user_language with
          | Returned suggestion_response =>
              let entry_data :=
                ConversationEntryCreate.set_responseText entry_data
                  (Some suggestion_response) in
              create_conversation_entry W db entry_data
          | Raised e => (Raised e, db)
          end
        else
          create_conversation_entry W db entry_data in
      (conversation_entry <- conversation_entry ;
       ret {| conversation_entry := conversation_entry;
              matched := bool_decide (matched_answer_key <> None);
              matched_answer_key := matched_answer_key;
              voice_text := voice_text;
              user_language := user_language |},
       db')
  end.
End ConversationService.

(** ** The routes ([app/routes/select_routes.py], [app/routes/voice_routes.py]) *)

Inductive http (A : Type) :=
| Ok (body : A)
| HTTPException (status_code : Z) (detail : string).
Arguments Ok {A} body.
Arguments HTTPException {A} status_code detail.

(** [except ValueError: 400], [except Exception: 500]. *)
Definition http_of_outcome {A} (r : outcome A) : http A :=
  match r with
  | Returned a => Ok a
  | Raised (ValueError msg) => HTTPException 400 msg
  | Raised e => HTTPException 500 ("An error occurred: " +:+ str_exn e)
  end.

Definition submit_select_answer (W : World) (db : Db) (session_id : option string)
    (user_id : option Z) (question_key : string) (answer_key responseText : option string)
    : http (ConversationEntryResponse.t * string) * Db :=
  let '(result, db') :=
    process_select_answer W db session_id user_id question_key answer_key responseText in
  (http_of_outcome
     (result <- result ;
      let user_language := get_user_language db' session_id in
      ret (result, user_language)),
   db').

Definition submit_voice_answer (W : World) (db : Db) (session_id : option string)
    (user_id : option Z) (question_key : string) (voice_text : option string)
    : http VoiceResult * Db :=
  let '(result, db') :=
    process_voice_answer W db session_id user_id question_key voice_text voice_text in
  (http_of_outcome result, db').

(** The body of the two [/next-question] routes. *)
Inductive NextQuestion :=
| NoMoreQuestions (message : string) (completed : bool)
| Question (next_question : QuestionMaster.t).

Definition next_question_route (db : Db) (session_id : string)
    (current_question_key : option string) : http NextQuestion :=
  match get_next_question db session_id current_question_key with
  | None => Ok (NoMoreQuestions "No more questions" true)
  | Some next_question => Ok (Question next_question)
  end.

(** ** [services/conversation_service.py]: the remaining methods *)

Definition analyze_text_only (O : OpenAI) (db : Db) (question_key : string)
    (user_text : option string) : outcome (option string) :=
  _ <- OpenAIAnalyzer.init O ;
  if negb (validate_question_key db question_key) then
    Raised (ValueError ("Invalid question key: " +:+ question_key))
  else
    let available_answers := get_active_answers_for_question db question_key in
    match available_answers with
    | [] => ret None
    | _ =>
        ret (OpenAIAnalyzer.analyze_user_response O user_text question_key
               available_answers)
    end.

(** [order_by(ConversationEntry.created_at)] *)
Definition created_le (e1 e2 : ConversationEntry.t) : Prop :=
  ConversationEntry.created_at e1 <= ConversationEntry.created_at e2.

Global Instance created_le_dec : RelDecision created_le.
Proof. intros e1 e2. unfold created_le. apply _. Defined.

Definition get_conversation_history (db : Db) (session_id : string)
    : list ConversationEntryResponse.t :=
  let entries :=
    merge_sort created_le
      (filter (fun e => ConversationEntry.session_id e = Some session_id)
              (conversation_entries db)) in
  ConversationEntryResponse.from_orm <$> entries.

(** ** The remaining routes *)

(** [QuestionResponse.from_orm]: the columns of the question and, through
    the relationship [answers], every answer row of its key. *)
Record AnswerResponse := {
  ar_answer_key : string;
  ar_answer_text : string;
  ar_answer_order : option Z
}.

Record QuestionResponse := {
  qr_question_key : string;
  qr_question_text : string;
  qr_question_order : Z;
  qr_type : option string;
  qr_answers : list AnswerResponse
}.

Definition QuestionResponse_from_orm (db : Db) (question : QuestionMaster.t)
    : QuestionResponse :=
  {| qr_question_key := QuestionMaster.question_key question;
     qr_question_text := QuestionMaster.question_text question;
     qr_question_order := QuestionMaster.question_order question;
     qr_type := QuestionMaster.type question;
     qr_answers :=
       (fun a => {| ar_answer_key := AnswerMaster.answer_key a;
                    ar_answer_text := AnswerMaster.answer_text a;
                    ar_answer_order := AnswerMaster.answer_order a |})
       <$> filter (fun a => AnswerMaster.question_key a
                            = QuestionMaster.question_key question)
                  (answer_masters db) |}.

(** [GET /question/{question_key}], the same in both routers. *)
Definition get_question_details (db : Db) (question_key : string)
    : http QuestionResponse :=
  match get_question_with_answers db question_key with
  | None => HTTPException 404 ("Question not found: " +:+ question_key)
  | Some question => Ok (QuestionResponse_from_orm db question)
  end.

(** The dictionary [POST /match-answer] returns. *)
Record MatchAnswer := {
  ma_matched : bool;
  ma_answer_key : option string;
  ma_answer_text : option string;
  ma_voice_text : string;
  ma_message : option string
}.

Definition match_answer_route (db : Db) (question_key voice_text : string)
    : MatchAnswer :=
  let matched_answer_key :=
    match_voice_to_answer db voice_text question_key default_threshold in
  if Py.truthy matched_answer_key then
    let answer :=
      head (filter (fun a => Some (AnswerMaster.answer_key a) = matched_answer_key)
                   (answer_masters db)) in
    {| ma_matched := true;
       ma_answer_key := matched_answer_key;
       ma_answer_text := AnswerMaster.answer_text <$> answer;
       ma_voice_text := voice_text;
       ma_message := None |}
  else
    {| ma_matched := false;
       ma_answer_key := None;
       ma_voice_text := voice_text;
       ma_answer_text := None;
       ma_message := Some "Could not match voice input to any answer" |}.

(** * Vocabulary of the statements *)

(** A string of ASCII white space only. *)
Fixpoint blank (w : string) : bool :=
  match w with
  | EmptyString => true
  | String c w' => Py.is_space c && blank w'
  end.

(** [ascii_recased u v]: [v] is [u] with the case of some of its letters
    A to Z changed, every other code unit being the same. *)
Inductive ascii_recased : string -> string -> Prop :=
| recased_nil : ascii_recased "" ""
| recased_cons c d u v :
    Py.lower_char c = Py.lower_char d -> ascii_recased u v ->
    ascii_recased (String c u) (String d v).

(** [ascii_padded u v]: [v] is [u] between two runs of ASCII white space. *)
Definition ascii_padded (u v : string) : Prop :=
  exists w1 w2, blank w1 = true /\ blank w2 = true /\ v = w1 +:+ u +:+ w2.

(** What the loop has found after the answers [l]: nothing while every
    score is under the threshold, and from then on the first answer of
    the greatest score. *)
Definition first_best (voice_text : string) (l : list AnswerMaster.t)
    (best : AnswerMaster.t) : Prop :=
  exists pre post,
    l = (pre ++ best :: post)%list
    /\ (forall x, x ∈ pre -> (answer_score voice_text x < answer_score voice_text best)%Q)
    /\ (forall x, x ∈ post -> (answer_score voice_text x <= answer_score voice_text best)%Q).

(** A match that lies in the ranges [alo, ahi) of [a] and [blo, bhi) of [b]. *)
Definition within (alo ahi blo bhi : nat) (m : difflib.Match) : Prop :=
  (alo <= m.1.1 /\ m.1.1 + m.2 <= ahi /\ blo <= m.1.2 /\ m.1.2 + m.2 <= bhi)%nat.

(** The lengths [j2len] holds when row [i] of the scan starts: those of
    the runs that end in the row before it. *)
Definition run_lengths (alo blo bhi i : nat) (j2len : gmap nat nat) : Prop :=
  map_Forall (fun j v => (v <= i - alo /\ v <= j + 1 - blo /\ j < bhi)%nat) j2len.



(** The invocation of the classifier raises: the analyzer cannot be
    built, or the call of the model fails. *)
Definition classifier_raises (W : World) (user_text : option string)
    (available_answers : list AnswerOption) : Prop :=
  (exists e, GeminiAnalyzer.init W = Raised e)
  \/ (exists e, generate_content W (GeminiAnalyzer.prompt user_text available_answers)
               = Raised e).

(** The texts an answer is compared with: its own, then its variations. *)
Definition compared_texts (a : AnswerMaster.t) : list string :=
  AnswerMaster.answer_text a :: get_common_variations (AnswerMaster.answer_text a).

(** ** A small catalogue

    Questions in wizard order, the last of them retired, with answers;
    the statements below are exercised on it. *)

Definition question (id : Z) (key text : string) (order : Z) (active : bool)
    : QuestionMaster.t :=
  {| QuestionMaster.id := id; QuestionMaster.question_key := key;
     QuestionMaster.question_text := text; QuestionMaster.question_order := order;
     QuestionMaster.type := Some "choice"; QuestionMaster.is_active := active |}.

Definition answer (id : Z) (key question_key text : string) (active : bool)
    : AnswerMaster.t :=
  {| AnswerMaster.id := id; AnswerMaster.answer_key := key;
     AnswerMaster.question_key := question_key; AnswerMaster.answer_text := text;
     AnswerMaster.answer_order := Some id; AnswerMaster.is_active := active |}.

Definition catalogue : Db :=
  {| question_masters :=
       [ question 1 "dietary_preference" "What do you prefer?" 1 true;
         question 2 "cuisine_type" "Which cuisine?" 2 true;
         question 3 "hunger_level" "How hungry are you?" 3 true;
         question 4 "retired_question" "An old question" 4 false ];
     answer_masters :=
       [ answer 1 "veg_key" "dietary_preference" "Vegetarian" true;
         answer 2 "nonveg_key" "dietary_preference" "Non-Vegetarian" true;
         answer 3 "vegan_key" "dietary_preference" "Vegan" true;
         answer 4 "stale_key" "retired_question" "Stale" true;
         answer 5 "italian_key" "cuisine_type" "Italian" true ];
     sessions :=
       [ {| Session.id := "s1"; Session.user_id := None;
            Session.language := "es"; Session.input_type := Some "voice" |} ];
     conversation_entries := [] |}.

(** A world with both keys set, whose language models answer [reply] to
    every prompt, whose item queries all behave as [items] and whose
    commits succeed. *)
Definition world (reply : outcome string) (items : outcome (list Row)) : World :=
  {| openai := {| OPENAI_API_KEY := Some "key"; chat_completion := fun _ => reply |};
     GEMINI_API_KEY := Some "key";
     generate_content := fun _ => reply;
     execute := fun _ _ _ => items;
     commit_error := fun _ => None;
     now := 1700000000 |}.

Definition unreachable : exn := Exception "connection refused".

(** The same world with [OPENAI_API_KEY] not set. *)
Definition without_openai_key (W : World) : World :=
  {| openai := {| OPENAI_API_KEY := None;
                  chat_completion := chat_completion (openai W) |};
     GEMINI_API_KEY := GEMINI_API_KEY W;
     generate_content := generate_content W;
     execute := execute W;
     commit_error := commit_error W;
     now := now W |}.


(** * Properties *)

(** Membership in a list that computes to its elements. *)
Ltac list_in :=
  vm_compute; repeat first [apply list_elem_of_here | apply list_elem_of_further].

Ltac list_not_in :=
  let H := fresh "Hin" in
  intros H; vm_compute in H;
  repeat (apply elem_of_cons in H as [H|H]; [discriminate H|]);
  inversion H.

(** ** The sequence matcher: the recursion of [get_matching_blocks] ends

    The longest match of a range lies in the range, so the ranges on
    either side of it are strictly shorter; the count of matched
    elements is then the same for every fuel above the length of the
    range in [a]. *)

Section MatcherBounds.
Variables a b : list ascii.

Lemma within_weaken alo ahi ahi' blo bhi m :
  (ahi <= ahi')%nat -> within alo ahi blo bhi m -> within alo ahi' blo bhi m.
Proof. unfold within. lia. Qed.

Lemma scan_js_within alo blo bhi i j2len js :
  (alo <= i)%nat ->
  run_lengths alo blo bhi i j2len ->
  forall newj2len best,
    run_lengths alo blo bhi (S i) newj2len ->
    within alo (S i) blo bhi best ->
    run_lengths alo blo bhi (S i) (difflib.scan_js blo bhi i j2len js newj2len best).1
    /\ within alo (S i) blo bhi (difflib.scan_js blo bhi i j2len js newj2len best).2.
Proof.
  intros Hi Hlen. induction js as [|j js IH]; intros newj2len best Hnew Hbest;
    cbn [difflib.scan_js]; [now split|].
  destruct (j <? blo)%nat eqn:Eblo; [now apply IH|].
  destruct (bhi <=? j)%nat eqn:Ebhi; [now split|].
  apply Nat.ltb_ge in Eblo. apply Nat.leb_gt in Ebhi.
  set (k := (match j with O => 0 | S j' => default 0 (j2len !! j') end + 1)%nat).
  assert (Hk : (1 <= k /\ k <= S i - alo /\ k <= j + 1 - blo)%nat).
  { subst k. destruct j as [|j']; [lia|].
    destruct (j2len !! j') as [v|] eqn:Ev; cbn; [|lia].
    destruct (Hlen j' v Ev) as (H1 & H2 & _). lia. }
  apply IH.
  - apply map_Forall_insert_2; [lia | assumption].
  - destruct (best.2 <? k)%nat; [|assumption]. unfold within. cbn. lia.
Qed.

Lemma scan_is_within alo blo bhi n :
  forall i j2len best,
    (alo <= i)%nat ->
    run_lengths alo blo bhi i j2len ->
    within alo i blo bhi best ->
    within alo (i + n) blo bhi (difflib.scan_is a b blo bhi (seq i n) j2len best).
Proof.
  induction n as [|n IH]; intros i j2len best Hi Hlen Hbest; cbn [seq difflib.scan_is].
  - now rewrite Nat.add_0_r.
  - set (js := match a !! i with Some c => default [] (difflib.b2j b !! c) | None => [] end).
    destruct (scan_js_within alo blo bhi i j2len js Hi Hlen ∅ best) as [Hnew Hbest'].
    + apply map_Forall_empty.
    + apply (within_weaken alo i); [lia | assumption].
    + destruct (difflib.scan_js blo bhi i j2len js ∅ best) as [newj2len best'].
      replace (i + S n)%nat with (S i + n)%nat by lia.
      apply IH; [lia | assumption | assumption].
Qed.

Lemma extend_left_within alo ahi blo bhi junk fuel :
  forall best,
    within alo ahi blo bhi best ->
    within alo ahi blo bhi (difflib.extend_left a b alo blo junk fuel best).
Proof.
  induction fuel as [|fuel IH]; intros [[besti bestj] bestsize] Hbest;
    cbn [difflib.extend_left]; [assumption|].
  destruct (_ && _) eqn:E; [|assumption].
  repeat (apply andb_prop in E as [E ?]).
  apply Nat.ltb_lt in E. match goal with H : (_ <? _)%nat = true |- _ =>
    apply Nat.ltb_lt in H end.
  apply IH. unfold within in *. cbn in *. lia.
Qed.

Lemma extend_right_within alo ahi blo bhi junk fuel :
  forall best,
    within alo ahi blo bhi best ->
    within alo ahi blo bhi (difflib.extend_right a b ahi bhi junk fuel best).
Proof.
  induction fuel as [|fuel IH]; intros [[besti bestj] bestsize] Hbest;
    cbn [difflib.extend_right]; [assumption|].
  destruct (_ && _) eqn:E; [|assumption].
  repeat (apply andb_prop in E as [E ?]).
  apply Nat.ltb_lt in E. match goal with H : (_ <? _)%nat = true |- _ =>
    apply Nat.ltb_lt in H end.
  apply IH. unfold within in *. cbn in *. lia.
Qed.

(** The two loops stop by their own tests before their fuel is spent. *)
Lemma extend_left_S alo blo junk fuel besti bestj bestsize :
  difflib.extend_left a b alo blo junk (S fuel) (besti, bestj, bestsize)
  = if (alo <? besti)%nat && (blo <? bestj)%nat
       && Bool.eqb (difflib.isbjunk (b !! (bestj - 1)%nat)) junk
       && difflib.same_elt (a !! (besti - 1)%nat) (b !! (bestj - 1)%nat)
    then difflib.extend_left a b alo blo junk fuel
           ((besti - 1)%nat, (bestj - 1)%nat, (bestsize + 1)%nat)
    else (besti, bestj, bestsize).
Proof. reflexivity. Qed.

Lemma extend_left_fuel alo blo junk fuel :
  forall best,
    (best.1.1 <= fuel)%nat ->
    difflib.extend_left a b alo blo junk (S fuel) best
    = difflib.extend_left a b alo blo junk fuel best.
Proof.
  induction fuel as [|fuel IH]; intros [[besti bestj] bestsize] Hfuel; cbn in Hfuel.
  - destruct besti; [|lia]. rewrite extend_left_S.
    replace (alo <? 0)%nat with false; [reflexivity|].
    symmetry. apply Nat.ltb_ge. lia.
  - rewrite (extend_left_S _ _ _ (S fuel)), (extend_left_S _ _ _ fuel besti bestj bestsize).
    destruct (_ && _) eqn:E; [|reflexivity].
    apply IH. cbn. lia.
Qed.

Lemma extend_right_S ahi bhi junk fuel besti bestj bestsize :
  difflib.extend_right a b ahi bhi junk (S fuel) (besti, bestj, bestsize)
  = if (besti + bestsize <? ahi)%nat && (bestj + bestsize <? bhi)%nat
       && Bool.eqb (difflib.isbjunk (b !! (bestj + bestsize)%nat)) junk
       && difflib.same_elt (a !! (besti + bestsize)%nat) (b !! (bestj + bestsize)%nat)
    then difflib.extend_right a b ahi bhi junk fuel
           (besti, bestj, (bestsize + 1)%nat)
    else (besti, bestj, bestsize).
Proof. reflexivity. Qed.

Lemma extend_right_fuel ahi bhi junk fuel :
  forall best,
    (ahi - (best.1.1 + best.2) <= fuel)%nat ->
    difflib.extend_right a b ahi bhi junk (S fuel) best
    = difflib.extend_right a b ahi bhi junk fuel best.
Proof.
  induction fuel as [|fuel IH]; intros [[besti bestj] bestsize] Hfuel; cbn in Hfuel.
  - rewrite extend_right_S.
    destruct (besti + bestsize <? ahi)%nat eqn:E; [|reflexivity].
    apply Nat.ltb_lt in E. lia.
  - rewrite (extend_right_S _ _ _ (S fuel)), (extend_right_S _ _ _ fuel besti bestj bestsize).
    destruct (_ && _) eqn:E; [|reflexivity].
    repeat (apply andb_prop in E as [E ?]). apply Nat.ltb_lt in E.
    apply IH. cbn. lia.
Qed.

Lemma find_longest_match_within alo ahi blo bhi :
  (alo <= ahi)%nat -> (blo <= bhi)%nat ->
  within alo ahi blo bhi (difflib.find_longest_match a b alo ahi blo bhi).
Proof.
  intros Ha Hb. unfold difflib.find_longest_match. cbn zeta.
  apply extend_right_within, extend_left_within, extend_right_within,
    extend_left_within.
  replace ahi with (alo + (ahi - alo))%nat at 1 by lia.
  apply scan_is_within; [lia | apply map_Forall_empty |].
  unfold within. cbn. lia.
Qed.

Lemma matched_size_fuel fuel1 :
  forall fuel2 alo ahi blo bhi,
    (alo <= ahi)%nat -> (blo <= bhi)%nat ->
    (ahi - alo < fuel1)%nat -> (ahi - alo < fuel2)%nat ->
    difflib.matched_size a b fuel1 alo ahi blo bhi
    = difflib.matched_size a b fuel2 alo ahi blo bhi.
Proof.
  induction fuel1 as [|fuel1 IH]; intros fuel2 alo ahi blo bhi Ha Hb H1 H2; [lia|].
  destruct fuel2 as [|fuel2]; [lia|]. cbn [difflib.matched_size].
  pose proof (find_longest_match_within alo ahi blo bhi Ha Hb) as Hw.
  destruct (difflib.find_longest_match a b alo ahi blo bhi) as [[i j] k].
  unfold within in Hw. cbn in Hw.
  destruct (k =? 0)%nat eqn:Ek; [reflexivity|]. apply Nat.eqb_neq in Ek.
  f_equal; [f_equal|].
  - destruct (_ && _); [|reflexivity]. apply IH; lia.
  - destruct (_ && _); [|reflexivity]. apply IH; lia.
Qed.

(** The count [difflib.matches] is that of any larger fuel. *)
Lemma matches_fuel fuel :
  (length a < fuel)%nat ->
  difflib.matches a b = difflib.matched_size a b fuel 0 (length a) 0 (length b).
Proof. intros H. unfold difflib.matches. apply matched_size_fuel; lia. Qed.

End MatcherBounds.

(** ** Text normalisation *)

Section TextLemmas.




End TextLemmas.

Section Normalisation.

Lemma lower_recased u v : ascii_recased u v -> Py.lower u = Py.lower v.
Proof. induction 1 as [|c d u v Hc _ IH]; simpl; congruence. Qed.








Lemma recased_refl u : ascii_recased u u.
Proof. induction u; constructor; auto. Qed.

Lemma padded_refl u : ascii_padded u u.
Proof.
  exists "", "". repeat split.
  change ("" +:+ u +:+ "") with (u +:+ "").
  induction u as [|c u IH]; [reflexivity|].
  change (String c u +:+ "") with (String c (u +:+ "")). congruence.
Qed.




End Normalisation.

(** ** The text similarity matcher *)

Section Matcher.

Lemma Qltb_lt x y : Qltb x y = true <-> (x < y)%Q.
Proof.
  unfold Qltb. rewrite Bool.negb_true_iff. split.
  - intros H. apply Qnot_le_lt. intros Hle.
    apply Qle_bool_iff in Hle. congruence.
  - intros H. destruct (Qle_bool y x) eqn:E; [|reflexivity].
    apply Qle_bool_iff in E. exfalso. exact (Qlt_not_le _ _ H E).
Qed.

Lemma Qltb_ge x y : Qltb x y = false <-> (y <= x)%Q.
Proof.
  unfold Qltb. rewrite Bool.negb_false_iff. apply Qle_bool_iff.
Qed.




(** The loop, one answer further. *)
Lemma match_loop_snoc voice_text threshold st l a :
  foldl (match_step voice_text threshold) st (l ++ [a])%list
  = match_step voice_text threshold (foldl (match_step voice_text threshold) st l) a.
Proof. now rewrite foldl_app. Qed.

Lemma match_loop_invariant voice_text threshold l :
  (0 < threshold)%Q ->
  let st := foldl (match_step voice_text threshold) (None, 0%Q) l in
  ((forall x, x ∈ l -> (answer_score voice_text x < threshold)%Q) /\ st = (None, 0%Q))
  \/ (exists best,
        first_best voice_text l best
        /\ (threshold <= answer_score voice_text best)%Q
        /\ st = (Some (AnswerMaster.answer_key best), answer_score voice_text best)).
Proof.
  intros Hthr. induction l as [|a l IH] using rev_ind; cbn zeta.
  - left. split; [|reflexivity]. intros x Hx. inversion Hx.
  - rewrite match_loop_snoc. cbn zeta in IH.
    destruct IH as [[Hall ->] | (best & (pre & post & -> & Hpre & Hpost) & Hge & ->)];
      unfold match_step; cbn [snd].
    + destruct (Qle_bool threshold (answer_score voice_text a)) eqn:Ethr.
      * apply Qle_bool_iff in Ethr.
        assert (Hlt : Qltb 0 (answer_score voice_text a) = true).
        { apply Qltb_lt. eapply Qlt_le_trans; eauto. }
        rewrite Hlt. cbn. right. exists a. split; [|split; [assumption|reflexivity]].
        exists l, []. split; [reflexivity|]. split.
        -- intros x Hx. eapply Qlt_le_trans; [apply Hall, Hx | assumption].
        -- intros x Hx. inversion Hx.
      * rewrite Bool.andb_false_r. left. split; [|reflexivity].
        intros x [Hx | ->%list_elem_of_singleton]%elem_of_app; [now apply Hall|].
        apply Qnot_le_lt. intros Hle. apply Qle_bool_iff in Hle. congruence.
    + destruct (Qltb (answer_score voice_text best) (answer_score voice_text a)) eqn:Elt.
      * apply Qltb_lt in Elt.
        assert (Ethr : Qle_bool threshold (answer_score voice_text a) = true).
        { apply Qle_bool_iff. apply Qlt_le_weak. eapply Qle_lt_trans; eauto. }
        rewrite Ethr. cbn. right. exists a.
        split; [|split; [|reflexivity]].
        -- exists (pre ++ best :: post)%list, []. split; [reflexivity|]. split.
           ++ intros x [Hx | [->|Hx]%elem_of_cons]%elem_of_app.
              ** eapply Qlt_trans; [apply Hpre, Hx | assumption].
              ** assumption.
              ** eapply Qle_lt_trans; [apply Hpost, Hx | assumption].
           ++ intros x Hx. inversion Hx.
        -- apply Qle_bool_iff in Ethr. assumption.
      * apply Qltb_ge in Elt. cbn. right. exists best.
        split; [|split; [assumption|reflexivity]].
        exists pre, (post ++ [a])%list. split; [now rewrite <- app_assoc|]. split.
        -- assumption.
        -- intros x [Hx | ->%list_elem_of_singleton]%elem_of_app; [now apply Hpost|assumption].
Qed.

End Matcher.

Section MatcherClaims.

Lemma py_max_fold_upper voice_text l q :
  let r := foldl (fun score variation =>
                    py_max score (calculate_similarity voice_text variation)) q l in
  (q <= r)%Q /\ (forall t, t ∈ l -> (calculate_similarity voice_text t <= r)%Q)
  /\ (r = q \/ exists t, t ∈ l /\ r = calculate_similarity voice_text t).
Proof.
  revert q. induction l as [|x l IH]; intros q; cbn zeta; simpl.
  - split; [apply Qle_refl|]. split; [intros t Ht; inversion Ht | now left].
  - specialize (IH (py_max q (calculate_similarity voice_text x))).
    cbn zeta in IH. destruct IH as (Hq & Hall & Hex).
    assert (Hmax : (q <= py_max q (calculate_similarity voice_text x))%Q
                   /\ (calculate_similarity voice_text x
                       <= py_max q (calculate_similarity voice_text x))%Q
                   /\ (py_max q (calculate_similarity voice_text x) = q
                       \/ py_max q (calculate_similarity voice_text x)
                          = calculate_similarity voice_text x)).
    { unfold py_max. destruct (Qltb q _) eqn:E.
      - apply Qltb_lt in E. split; [now apply Qlt_le_weak|].
        split; [apply Qle_refl | now right].
      - apply Qltb_ge in E. split; [apply Qle_refl|]. split; [assumption | now left]. }
    destruct Hmax as (H1 & H2 & H3). split; [eapply Qle_trans; eauto|]. split.
    + intros t [->|Ht]%elem_of_cons; [eapply Qle_trans; eauto | now apply Hall].
    + destruct Hex as [Hr | (t & Ht & Hr)].
      * destruct H3 as [H3|H3]; rewrite Hr, H3; [now left|].
        right. exists x. split; [apply list_elem_of_here | reflexivity].
      * right. exists t. split; [now apply list_elem_of_further | assumption].
Qed.

(** The score of a candidate is the greatest of the ratios of the
    utterance against its text and against each of its variations. *)
Lemma answer_score_greatest voice_text a :
  (forall t, t ∈ compared_texts a ->
     (calculate_similarity voice_text t <= answer_score voice_text a)%Q)
  /\ (exists t, t ∈ compared_texts a
                /\ answer_score voice_text a = calculate_similarity voice_text t).
Proof.
  unfold answer_score, compared_texts.
  destruct (py_max_fold_upper voice_text
              (get_common_variations (AnswerMaster.answer_text a))
              (calculate_similarity voice_text (AnswerMaster.answer_text a)))
    as (Hq & Hall & Hex).
  cbn zeta in *. split.
  - intros t [->|Ht]%elem_of_cons; [assumption | now apply Hall].
  - destruct Hex as [-> | (t & Ht & ->)].
    + eexists. split; [apply list_elem_of_here | reflexivity].
    + exists t. split; [now apply list_elem_of_further | reflexivity].
Qed.

(** C3. With the threshold 0.6, [match_voice_to_answer] returns [None]
    at once when the question has no active answer, returns [None] when
    the best score over the candidates is strictly under 0.6, and
    otherwise returns the key of the first candidate that reaches the
    greatest score; the score of a candidate is the greatest ratio over
    its text and its variations. *)
Theorem match_voice_to_answer_threshold_first_best db voice_text question_key :
  let answers := filter (active_answer_of question_key) (answer_masters db) in
  let result := match_voice_to_answer db voice_text question_key default_threshold in
  (answers = [] -> result = None)
  /\ ((forall a, a ∈ answers -> (answer_score voice_text a < 3 # 5)%Q) -> result = None)
  /\ ((exists a, a ∈ answers /\ (3 # 5 <= answer_score voice_text a)%Q) ->
      exists best,
        first_best voice_text answers best
        /\ (3 # 5 <= answer_score voice_text best)%Q
        /\ result = Some (AnswerMaster.answer_key best))
  /\ (forall a, a ∈ answers ->
        (forall t, t ∈ compared_texts a ->
           (calculate_similarity voice_text t <= answer_score voice_text a)%Q)
        /\ (exists t, t ∈ compared_texts a
                      /\ answer_score voice_text a = calculate_similarity voice_text t)).
Proof.
  cbn zeta. unfold match_voice_to_answer.
  set (answers := filter (active_answer_of question_key) (answer_masters db)).
  assert (Hthr : (0 < default_threshold)%Q) by reflexivity.
  pose proof (match_loop_invariant voice_text default_threshold answers Hthr) as Hinv.
  cbn zeta in Hinv.
  split; [intros ->; reflexivity|]. split; [|split].
  - intros Hall. destruct answers as [|a l] eqn:E; [reflexivity|].
    destruct Hinv as [[_ ->] | (best & (pre & post & Hl & _ & _) & Hge & _)];
      [reflexivity|].
    exfalso. apply (Qlt_not_le _ _ (Hall best ltac:(rewrite Hl; apply elem_of_app; right; apply list_elem_of_here))).
    exact Hge.
  - intros (a & Ha & Hge).
    destruct Hinv as [[Hall _] | (best & Hbest & Hge' & Hst)].
    + exfalso. exact (Qlt_not_le _ _ (Hall a Ha) Hge).
    + exists best. split; [assumption|]. split; [assumption|].
      destruct answers as [|a0 l]; [inversion Ha|]. now rewrite Hst.
  - intros a _. apply answer_score_greatest.
Qed.



End MatcherClaims.

Lemma match_voice_to_answer_threshold_first_best_witness :
  match_voice_to_answer catalogue "veg" "unknown_question" default_threshold = None
  /\ match_voice_to_answer catalogue "asdkjasdkj" "dietary_preference" default_threshold = None
  /\ exists best,
       first_best "veggie"
         (filter (active_answer_of "dietary_preference") (answer_masters catalogue)) best
       /\ match_voice_to_answer catalogue "veggie" "dietary_preference" default_threshold
          = Some (AnswerMaster.answer_key best).
Proof.
  assert (Hl : filter (active_answer_of "dietary_preference") (answer_masters catalogue)
               = [ answer 1 "veg_key" "dietary_preference" "Vegetarian" true;
                   answer 2 "nonveg_key" "dietary_preference" "Non-Vegetarian" true;
                   answer 3 "vegan_key" "dietary_preference" "Vegan" true ])
    by (vm_compute; reflexivity).
  split; [|split].
  - destruct (match_voice_to_answer_threshold_first_best
                catalogue "veg" "unknown_question") as (H & _).
    apply H. reflexivity.
  - destruct (match_voice_to_answer_threshold_first_best
                catalogue "asdkjasdkj" "dietary_preference") as (_ & H & _).
    apply H. rewrite Hl. intros a Ha.
    repeat (apply elem_of_cons in Ha as [->|Ha]); [vm_compute; reflexivity ..|].
    inversion Ha.
  - destruct (match_voice_to_answer_threshold_first_best
                catalogue "veggie" "dietary_preference") as (_ & _ & H & _).
    destruct H as (best & Hbest & _ & Hres).
    + exists (answer 1 "veg_key" "dietary_preference" "Vegetarian" true).
      split; [rewrite Hl; apply list_elem_of_here|].
      apply Qle_bool_iff. vm_compute. reflexivity.
    + exists best. split; assumption.
Defined.


(** ** The Recorder *)

Section RecorderLemmas.
Variable W : World.

Lemma validate_answer_key_elem db answer_key question_key :
  validate_answer_key db answer_key question_key = true <->
  exists a, a ∈ answer_masters db
            /\ AnswerMaster.answer_key a = answer_key
            /\ AnswerMaster.question_key a = question_key
            /\ AnswerMaster.is_active a = true.
Proof.
  unfold validate_answer_key, active_answer_of. split.
  - destruct (head _) as [a|] eqn:E; [intros _|discriminate].
    apply head_Some_elem_of in E. apply list_elem_of_filter in E as [(? & ? & ?) ?].
    eauto 6.
  - intros (a & Hin & H1 & H2 & H3).
    destruct (filter _ _) as [|x l] eqn:E; [|reflexivity].
    assert (Ha : a ∈ @nil AnswerMaster.t); [|inversion Ha].
    rewrite <- E. apply list_elem_of_filter. auto.
Qed.

Lemma validate_question_key_elem db question_key :
  validate_question_key db question_key = true <->
  exists q, q ∈ question_masters db
            /\ QuestionMaster.question_key q = question_key
            /\ QuestionMaster.is_active q = true.
Proof.
  unfold validate_question_key, active_question. split.
  - destruct (head _) as [q|] eqn:E; [intros _|discriminate].
    apply head_Some_elem_of in E. apply list_elem_of_filter in E as [(? & ?) ?].
    eauto.
  - intros (q & Hin & H1 & H2).
    destruct (filter _ _) as [|x l] eqn:E; [|reflexivity].
    assert (Hq : q ∈ @nil QuestionMaster.t); [|inversion Hq].
    rewrite <- E. apply list_elem_of_filter. auto.
Qed.

(** The analyzer that is built first: it is, when the key is set. *)
Lemma openai_init_set :
  Py.truthy (OPENAI_API_KEY (openai W)) = true ->
  OpenAIAnalyzer.init (openai W) = Returned tt.
Proof. intros H. unfold OpenAIAnalyzer.init. now rewrite H. Qed.

(** Without [OPENAI_API_KEY] the call raises before it reads anything. *)
Lemma create_conversation_entry_no_openai_key db entry_data :
  Py.truthy (OPENAI_API_KEY (openai W)) = false ->
  create_conversation_entry W db entry_data
  = (Raised (ValueError "OPENAI_API_KEY not found in environment variables"), db).
Proof.
  intros H. unfold create_conversation_entry, OpenAIAnalyzer.init. now rewrite H.
Qed.

(** An unknown or inactive question key: the call raises and leaves
    the tables as they were. *)
Lemma create_conversation_entry_invalid_question db entry_data :
  Py.truthy (OPENAI_API_KEY (openai W)) = true ->
  validate_question_key db (ConversationEntryCreate.question_key entry_data) = false ->
  create_conversation_entry W db entry_data
  = (Raised (ValueError ("Invalid question key: "
                         +:+ ConversationEntryCreate.question_key entry_data)), db).
Proof.
  intros Hkey H. unfold create_conversation_entry.
  now rewrite (openai_init_set Hkey), H.
Qed.

(** The key set, an active question key and a commit that succeeds: one
    row is appended, the one [entry_row] builds. *)
Lemma create_conversation_entry_recorded db entry_data :
  Py.truthy (OPENAI_API_KEY (openai W)) = true ->
  validate_question_key db (ConversationEntryCreate.question_key entry_data) = true ->
  commit_error W (entry_row W db entry_data) = None ->
  create_conversation_entry W db entry_data
  = (Returned (ConversationEntryResponse.from_orm (entry_row W db entry_data)),
     add_entry db (entry_row W db entry_data)).
Proof.
  intros Hkey H1 H2. unfold create_conversation_entry.
  now rewrite (openai_init_set Hkey), H1, H2.
Qed.

(** A call that returns has recorded the row [entry_row] builds. *)
Lemma create_conversation_entry_returned db entry_data r db' :
  create_conversation_entry W db entry_data = (Returned r, db') ->
  Py.truthy (OPENAI_API_KEY (openai W)) = true
  /\ validate_question_key db (ConversationEntryCreate.question_key entry_data) = true
  /\ r = ConversationEntryResponse.from_orm (entry_row W db entry_data)
  /\ db' = add_entry db (entry_row W db entry_data).
Proof.
  unfold create_conversation_entry, OpenAIAnalyzer.init.
  destruct (Py.truthy (OPENAI_API_KEY (openai W))); [|discriminate].
  destruct (validate_question_key db _); [|discriminate]. cbn [negb].
  destruct (commit_error W _); [discriminate|].
  intros [= <- <-]. auto.
Qed.

(** Whatever happens, the table of entries grows by at most one row. *)
Lemma create_conversation_entry_at_most_one db entry_data :
  let db' := (create_conversation_entry W db entry_data).2 in
  db' = db \/ exists e, db' = add_entry db e.
Proof.
  cbn zeta. unfold create_conversation_entry.
  destruct (OpenAIAnalyzer.init (openai W)); [|now left].
  destruct (negb _); [now left|].
  destruct (commit_error _ _); [now left | right; eauto].
Qed.

(** A key that was checked is either dropped or that of an active
    answer of the question. *)
Lemma checked_answer_key_valid db entry_data k :
  checked_answer_key db entry_data = Some k ->
  Py.truthy_str k = true ->
  validate_answer_key db k (ConversationEntryCreate.question_key entry_data) = true.
Proof.
  unfold checked_answer_key.
  destruct (ConversationEntryCreate.answer_key entry_data) as [k'|]; [|discriminate].
  destruct (Py.truthy_str k') eqn:Et.
  - destruct (validate_answer_key _ _ _) eqn:Ev; [|discriminate].
    now intros [= <-] _.
  - intros [= <-]. congruence.
Qed.

Lemma checked_answer_key_downgrade db entry_data k :
  ConversationEntryCreate.answer_key entry_data = Some k ->
  Py.truthy_str k = true ->
  validate_answer_key db k (ConversationEntryCreate.question_key entry_data) = false ->
  checked_answer_key db entry_data = None.
Proof. intros H1 H2 H3. unfold checked_answer_key. now rewrite H1, H2, H3. Qed.

End RecorderLemmas.

Section RecorderClaims.

(** Answer validity for every key the Recorder checks: a non-empty key
    that is persisted is the key of an active answer of the question of
    the turn, and a non-empty key that is not is replaced by [None], the
    turn being recorded all the same. *)
Lemma create_conversation_entry_checked_key W db entry_data :
  Py.truthy (OPENAI_API_KEY (openai W)) = true ->
  validate_question_key db (ConversationEntryCreate.question_key entry_data) = true ->
  commit_error W (entry_row W db entry_data) = None ->
  exists e,
    create_conversation_entry W db entry_data
    = (Returned (ConversationEntryResponse.from_orm e), add_entry db e)
    /\ ConversationEntry.question_key e = ConversationEntryCreate.question_key entry_data
    /\ (forall k, ConversationEntry.answer_key e = Some k -> k <> "" ->
          exists a, a ∈ answer_masters db
                    /\ AnswerMaster.answer_key a = k
                    /\ AnswerMaster.question_key a = ConversationEntry.question_key e
                    /\ AnswerMaster.is_active a = true)
    /\ (forall k, ConversationEntryCreate.answer_key entry_data = Some k -> k <> "" ->
          validate_answer_key db k (ConversationEntryCreate.question_key entry_data) = false ->
          ConversationEntry.answer_key e = None).
Proof.
  intros Hkey Hq Hc. exists (entry_row W db entry_data).
  split; [now apply create_conversation_entry_recorded|].
  split; [reflexivity|]. split.
  - intros k Hk Hne. cbn in Hk. apply validate_answer_key_elem.
    eapply checked_answer_key_valid; [exact Hk|]. now destruct k.
  - intros k Hk Hne Hv. cbn. eapply checked_answer_key_downgrade; eauto. now destruct k.
Qed.

(** C2. The empty answer key escapes the check: sent with an active
    question, it is persisted as it is although no active answer of the
    question has that key. *)
Theorem create_conversation_entry_empty_answer_key_kept :
  let W := world (Returned "NONE") (Returned []) in
  let entry_data :=
    ConversationEntryCreate.new (Some "s1") None "dietary_preference" (Some "")
      None None "select" in
  validate_answer_key catalogue "" "dietary_preference" = false
  /\ exists e,
       create_conversation_entry W catalogue entry_data
       = (Returned (ConversationEntryResponse.from_orm e), add_entry catalogue e)
       /\ ConversationEntry.question_key e = "dietary_preference"
       /\ ConversationEntry.answer_key e = Some "".
Proof.
  cbn zeta. split; [reflexivity|].
  eexists. split; [reflexivity|]. split; reflexivity.
Qed.

(** C6, as stated, fails: the progression engine answers an unknown
    question key with "No more questions", not with an error. *)
Lemma next_question_unknown_key_not_rejected :
  ~ (forall db session_id k,
       validate_question_key db k = false ->
       exists status_code detail,
         next_question_route db session_id (Some k) = HTTPException status_code detail).
Proof.
  intros H.
  destruct (H catalogue "s1" "no_such_question" eq_refl) as (status_code & detail & Heq).
  vm_compute in Heq. discriminate Heq.
Qed.

Lemma filter_none_head {A} (P : A -> Prop) `{!forall x, Decision (P x)} (l : list A) :
  (forall x, x ∈ l -> ~ P x) -> head (filter P l) = None.
Proof.
  intros Hall. destruct (filter P l) as [|x l'] eqn:E; [reflexivity|].
  assert (Hx : x ∈ filter P l) by (rewrite E; apply list_elem_of_here).
  apply list_elem_of_filter in Hx as [HP Hin]. now destruct (Hall x Hin).
Qed.

(** C6, amended. The Recorder rejects an unknown or inactive question key
    with a [ValueError], which the routes turn into a 400 response, and
    records nothing; the detail names the question key when
    [OPENAI_API_KEY] is set, and otherwise is that of the analyzer the
    Recorder builds first. The progression engine makes no such check:
    it answers a non-empty key that no question has with [None], which
    its route reports as the end of the wizard, and it treats the empty
    key as no key, answering with the first question. *)
Theorem question_key_validation W db :
  (forall entry_data,
     validate_question_key db (ConversationEntryCreate.question_key entry_data) = false ->
     exists detail,
       create_conversation_entry W db entry_data = (Raised (ValueError detail), db)
       /\ http_of_outcome (create_conversation_entry W db entry_data).1
          = HTTPException 400 detail
       /\ (Py.truthy (OPENAI_API_KEY (openai W)) = true ->
           detail = "Invalid question key: "
                    +:+ ConversationEntryCreate.question_key entry_data)
       /\ (Py.truthy (OPENAI_API_KEY (openai W)) = false ->
           detail = "OPENAI_API_KEY not found in environment variables"))
  /\ (forall session_id k,
        k <> "" ->
        (forall q, q ∈ question_masters db -> QuestionMaster.question_key q <> k) ->
        get_next_question db session_id (Some k) = None
        /\ next_question_route db session_id (Some k)
           = Ok (NoMoreQuestions "No more questions" true))
  /\ (forall session_id,
        get_next_question db session_id (Some "") = get_next_question db session_id None).
Proof.
  split; [|split].
  - intros entry_data H.
    destruct (Py.truthy (OPENAI_API_KEY (openai W))) eqn:Hkey.
    + rewrite (create_conversation_entry_invalid_question W db entry_data Hkey H).
      eexists. split; [reflexivity|]. split; [reflexivity|].
      split; [reflexivity | discriminate].
    + rewrite (create_conversation_entry_no_openai_key W db entry_data Hkey).
      eexists. split; [reflexivity|]. split; [reflexivity|].
      split; [discriminate | reflexivity].
  - intros session_id k Hne Hk.
    assert (Hn : get_next_question db session_id (Some k) = None).
    { unfold get_next_question.
      assert (Et : Py.truthy (Some k) = true) by now destruct k.
      rewrite Et, filter_none_head; [reflexivity|].
      intros q Hq [= Heq]. exact (Hk q Hq Heq). }
    split; [assumption|]. unfold next_question_route. now rewrite Hn.
  - reflexivity.
Qed.

Lemma question_key_validation_witness :
  let W := world (Returned "NONE") (Returned []) in
  let entry_data :=
    ConversationEntryCreate.new None None "retired_question" (Some "stale_key")
      None None "select" in
  (exists detail,
     create_conversation_entry W catalogue entry_data = (Raised (ValueError detail), catalogue)
     /\ detail = "Invalid question key: retired_question")
  /\ get_next_question catalogue "s1" (Some "no_such_question") = None.
Proof.
  cbn zeta.
  destruct (question_key_validation (world (Returned "NONE") (Returned [])) catalogue)
    as (Hrec & Hnext & _).
  split.
  - destruct (Hrec (ConversationEntryCreate.new None None "retired_question"
                      (Some "stale_key") None None "select") eq_refl)
      as (detail & Hcall & _ & Hd & _).
    exists detail. split; [exact Hcall | now apply Hd].
  - apply (Hnext "s1" "no_such_question"); [discriminate|].
    intros q Hq. unfold catalogue in Hq. cbn in Hq.
    repeat (apply elem_of_cons in Hq as [->|Hq]); [discriminate ..|].
    inversion Hq.
Defined.

End RecorderClaims.

(** ** The intent classifier *)

Section ClassifierClaims.

(** C4, as stated, fails: a model text that is a candidate key followed
    by a line break equals no candidate key and no sentinel, and it is
    accepted as that key. *)
Lemma analyze_user_response_padded_key_accepted :
  ~ (forall W user_text question_key available_answers text,
       available_answers <> [] ->
       generate_content W (GeminiAnalyzer.prompt user_text available_answers)
       = Returned text ->
       text ∉ (opt_answer_key <$> available_answers) ->
       text <> "NONE" -> text <> "SUGGESTION_REQUEST" ->
       GeminiAnalyzer.analyze_user_response W user_text question_key available_answers
       = Some SORRY_DONT_UNDERSTAND).
Proof.
  intros H.
  specialize (H (world (Returned "veg_key
") (Returned [])) (Some "I eat no meat") "dietary_preference"
                (get_active_answers_for_question catalogue "dietary_preference")
                "veg_key
").
  assert (Hres : Some "veg_key" = Some SORRY_DONT_UNDERSTAND); [|discriminate Hres].
  apply H; try discriminate; [reflexivity|].
  list_not_in.
Qed.

(** C4, amended. The model text is stripped of the white space around it
    and then compared: a candidate key is returned as it is; otherwise
    [NONE] gives [SORRY_DONT_UNDERSTAND], [SUGGESTION_REQUEST] gives
    itself and any other text gives [SORRY_DONT_UNDERSTAND]; when the
    call of the model raises, the result is [None]. *)
Theorem analyze_user_response_fail_closed W user_text question_key available_answers :
  available_answers <> [] ->
  let keys := opt_answer_key <$> available_answers in
  let reply := generate_content W (GeminiAnalyzer.prompt user_text available_answers) in
  let result :=
    GeminiAnalyzer.analyze_user_response W user_text question_key available_answers in
  (forall text,
     reply = Returned text ->
     let answer := Py.strip text in
     (answer ∈ keys -> result = Some answer)
     /\ (answer ∉ keys -> answer = "NONE" -> result = Some SORRY_DONT_UNDERSTAND)
     /\ (answer = "SUGGESTION_REQUEST" -> result = Some SUGGESTION_REQUEST)
     /\ (answer ∉ keys -> answer <> "NONE" -> answer <> "SUGGESTION_REQUEST" ->
         result = Some SORRY_DONT_UNDERSTAND))
  /\ (forall e, reply = Raised e -> result = None /\ result <> Some SORRY_DONT_UNDERSTAND).
Proof.
  intros Hne. cbn zeta. unfold GeminiAnalyzer.analyze_user_response.
  destruct available_answers as [|a0 l]; [contradiction|].
  set (available_answers := a0 :: l). split.
  - intros text ->. unfold GeminiAnalyzer.validate_answer.
    fold available_answers. repeat split.
    + intros Hin. now rewrite bool_decide_eq_true_2.
    + intros Hnin Heq. rewrite (bool_decide_eq_false_2 _ Hnin), Heq. reflexivity.
    + intros ->. destruct (bool_decide _); reflexivity.
    + intros Hnin H1 H2.
      rewrite (bool_decide_eq_false_2 _ Hnin), (bool_decide_eq_false_2 _ H1),
        (bool_decide_eq_false_2 _ H2).
      reflexivity.
  - intros e ->. split; [reflexivity | discriminate].
Qed.

Lemma analyze_user_response_fail_closed_witness :
  let available_answers := get_active_answers_for_question catalogue "dietary_preference" in
  GeminiAnalyzer.analyze_user_response
    (world (Returned "  vegan_key
") (Returned [])) (Some "plants only") "dietary_preference" available_answers
  = Some "vegan_key"
  /\ GeminiAnalyzer.analyze_user_response
       (world (Returned "I think the user wants veg_key") (Returned []))
       (Some "hmm") "dietary_preference" available_answers
     = Some SORRY_DONT_UNDERSTAND
  /\ GeminiAnalyzer.analyze_user_response
       (world (Raised unreachable) (Returned []))
       (Some "hmm") "dietary_preference" available_answers
     = None.
Proof.
  cbn zeta.
  assert (Hne : get_active_answers_for_question catalogue "dietary_preference" <> [])
    by discriminate.
  split; [|split].
  - destruct (analyze_user_response_fail_closed
                (world (Returned "  vegan_key
") (Returned [])) (Some "plants only") "dietary_preference" _ Hne) as [H _].
    destruct (H _ eq_refl) as (H1 & _). apply H1.
    list_in.
  - destruct (analyze_user_response_fail_closed
                (world (Returned "I think the user wants veg_key") (Returned []))
                (Some "hmm") "dietary_preference" _ Hne) as [H _].
    destruct (H _ eq_refl) as (_ & _ & _ & H4). apply H4; try discriminate.
    list_not_in.
  - destruct (analyze_user_response_fail_closed
                (world (Raised unreachable) (Returned []))
                (Some "hmm") "dietary_preference" _ Hne) as [_ H].
    apply (H unreachable eq_refl).
Defined.

End ClassifierClaims.

(** ** The suggestion generator *)

Section SuggestionLemmas.
Variable W : World.

(** A reader never raises: the rows it read, or nothing. *)
Lemma read_items_returns q source diet_value limit :
  FoodSuggestionService.read_items W q source diet_value limit
  = Returned match execute W q diet_value limit with
             | Returned result => FoodSuggestionService.suggestion_of_row source <$> result
             | Raised _ => []
             end.
Proof.
  unfold FoodSuggestionService.read_items.
  destruct (execute W q diet_value limit); reflexivity.
Qed.

(** So the [except] branch of [get_suggestions_by_dietary_preference],
    the only user of the static fallback list, is never taken. *)
Lemma get_suggestions_returns dietary_preference limit :
  exists suggestions,
    FoodSuggestionService.get_suggestions_by_dietary_preference W dietary_preference limit
    = Returned (Py.slice_to suggestions limit)
    /\ ((forall q diet_value n,
           match execute W q diet_value n with
           | Returned result => result = []
           | Raised _ => True
           end) ->
        suggestions = []).
Proof.
  unfold FoodSuggestionService.get_suggestions_by_dietary_preference,
    FoodSuggestionService._get_suggestions_from_orders,
    FoodSuggestionService._get_suggestions_from_cart,
    FoodSuggestionService._get_general_suggestions.
  set (diet_value := default "vegetarian" _).
  rewrite read_items_returns. cbn [bind].
  set (l1 := match execute W order_items diet_value limit with
             | Returned result => _ | Raised _ => [] end).
  destruct (Z.of_nat (length l1) <? limit) eqn:E1; cbn [bind ret].
  - rewrite read_items_returns. cbn [bind ret].
    set (l2 := match execute W cart_items _ _ with
               | Returned result => _ | Raised _ => [] end).
    destruct (Z.of_nat (length (l1 ++ l2)) <? limit) eqn:E2; cbn [bind ret].
    + rewrite read_items_returns. cbn [bind ret try_except].
      eexists. split; [reflexivity|]. intros Hall. subst l1 l2.
      pose proof (Hall order_items diet_value limit) as H1.
      destruct (execute W order_items diet_value limit); [subst|]; cbn;
        match goal with
        | |- context [execute W cart_items ?d ?n] =>
            pose proof (Hall cart_items d n) as H2;
            destruct (execute W cart_items d n); [subst|]; cbn
        end;
        match goal with
        | |- context [execute W all_items ?d ?n] =>
            pose proof (Hall all_items d n) as H3;
            destruct (execute W all_items d n); [subst|]; reflexivity
        end.
    + cbn [try_except]. eexists. split; [reflexivity|]. intros Hall. subst l1 l2.
      pose proof (Hall order_items diet_value limit) as H1.
      destruct (execute W order_items diet_value limit); [subst|]; cbn;
        match goal with
        | |- context [execute W cart_items ?d ?n] =>
            pose proof (Hall cart_items d n) as H2;
            destruct (execute W cart_items d n); [subst|]; reflexivity
        end.
  - cbn [try_except]. rewrite E1. cbn [bind ret try_except].
    eexists. split; [reflexivity|]. intros Hall. subst l1.
    pose proof (Hall order_items diet_value limit) as H1.
    destruct (execute W order_items diet_value limit); [subst|]; reflexivity.
Qed.

End SuggestionLemmas.

Section SuggestionClaims.

(** C7. With every item query failing, the generator returns the empty
    list, although the static fallback list of the preference has three
    items: the readers swallow the failures, so the branch that returns
    the fallback list is not reached. *)
Theorem get_suggestions_all_sources_fail_empty :
  let W := world (Returned "SUGGESTION_REQUEST") (Raised unreachable) in
  FoodSuggestionService.get_suggestions_by_dietary_preference W "veg" 5 = Returned []
  /\ length (FoodSuggestionService._get_fallback_suggestions "veg") = 3%nat.
Proof. split; reflexivity. Qed.

Lemma append_nonempty_r s t : t <> "" -> s +:+ t <> "".
Proof. destruct s; [trivial | discriminate]. Qed.

Lemma extract_dietary_preference_returns user_text :
  exists dietary_preference,
    _extract_dietary_preference (Some user_text) = Returned dietary_preference.
Proof.
  unfold _extract_dietary_preference.
  repeat match goal with |- context [if ?b then _ else _] => destruct b end;
    eexists; reflexivity.
Qed.

(** The templates of every language have text, and a language without
    templates gets those of English. *)
Lemma language_messages_cases dietary_preference language :
  let messages :=
    default (FoodSuggestionService.default_messages dietary_preference)
            (FoodSuggestionService.language_messages dietary_preference !! language) in
  FoodSuggestionService.fallback messages <> ""
  /\ FoodSuggestionService.follow_up messages <> ""
  /\ (language ∉ ["en"; "es"; "fr"; "hi"] ->
      messages = default (FoodSuggestionService.default_messages dietary_preference)
                         (FoodSuggestionService.language_messages dietary_preference !! "en")).
Proof.
  cbn zeta.
  destruct (decide (language = "en")) as [->|Hen];
    [vm_compute; repeat split; discriminate|].
  destruct (decide (language = "es")) as [->|Hes];
    [vm_compute; repeat split; try discriminate; intros H; exfalso; apply H; list_in|].
  destruct (decide (language = "fr")) as [->|Hfr];
    [vm_compute; repeat split; try discriminate; intros H; exfalso; apply H; list_in|].
  destruct (decide (language = "hi")) as [->|Hhi];
    [vm_compute; repeat split; try discriminate; intros H; exfalso; apply H; list_in|].
  assert (Hnone : FoodSuggestionService.language_messages dietary_preference !! language
                  = None).
  { unfold FoodSuggestionService.language_messages.
    rewrite !lookup_insert_ne by congruence. apply lookup_singleton_ne. congruence. }
  rewrite Hnone. vm_compute. repeat split; discriminate.
Qed.

Lemma format_with_language_nonempty suggestions dietary_preference language :
  FoodSuggestionService.format_suggestions_response_with_language
    suggestions dietary_preference language <> "".
Proof.
  unfold FoodSuggestionService.format_suggestions_response_with_language.
  destruct (language_messages_cases dietary_preference language) as (H1 & H2 & _).
  cbn zeta in *. destruct suggestions; [assumption | now apply append_nonempty_r].
Qed.

Lemma format_with_language_default suggestions dietary_preference language :
  language ∉ ["en"; "es"; "fr"; "hi"] ->
  FoodSuggestionService.format_suggestions_response_with_language
    suggestions dietary_preference language
  = FoodSuggestionService.format_suggestions_response_with_language
      suggestions dietary_preference "en".
Proof.
  intros H. unfold FoodSuggestionService.format_suggestions_response_with_language.
  destruct (language_messages_cases dietary_preference language) as (_ & _ & H3).
  cbn zeta in H3. now rewrite (H3 H).
Qed.

Lemma string_app_assoc (s1 s2 s3 : string) : (s1 +:+ s2) +:+ s3 = s1 +:+ (s2 +:+ s3).
Proof.
  induction s1 as [|c s1 IH]; [reflexivity|].
  change ((String c s1 +:+ s2) +:+ s3) with (String c ((s1 +:+ s2) +:+ s3)).
  change (String c s1 +:+ (s2 +:+ s3)) with (String c (s1 +:+ (s2 +:+ s3))).
  now rewrite IH.
Qed.

Lemma string_app_nil_r (s : string) : s +:+ "" = s.
Proof.
  induction s as [|c s IH]; [reflexivity|].
  change (String c s +:+ "") with (String c (s +:+ "")). now rewrite IH.
Qed.

(** The numbered items are appended to the text given: it stays in front. *)
Lemma append_items_prefix response suggestions :
  exists items,
    FoodSuggestionService.append_items response suggestions = response +:+ items.
Proof.
  unfold FoodSuggestionService.append_items.
  generalize (imap (fun i suggestion => (S i, suggestion)) suggestions).
  intros l. revert response.
  induction l as [|[i x] l IH]; intros response; cbn [foldl].
  - exists "". now rewrite string_app_nil_r.
  - destruct (IH (response +:+ FoodSuggestionService.item_lines i x)) as [items ->].
    eexists. apply string_app_assoc.
Qed.

(** No reply in the Spanish templates is the fixed apology. *)
Lemma spanish_reply_not_apology suggestions dietary_preference :
  FoodSuggestionService.format_suggestions_response_with_language
    suggestions dietary_preference "es" <> suggestions_unavailable.
Proof.
  unfold FoodSuggestionService.format_suggestions_response_with_language.
  destruct suggestions as [|x l].
  - vm_compute. discriminate.
  - cbn zeta.
    destruct (append_items_prefix
                (FoodSuggestionService.intro
                   (default (FoodSuggestionService.default_messages dietary_preference)
                      (FoodSuggestionService.language_messages dietary_preference !! "es"))
                 +:+ Py.newline +:+ Py.newline) (x :: l)) as [items ->].
    vm_compute. discriminate.
Qed.

(** C8, as stated, fails: with no text to read the preference from, the
    reply under the language [es] is the fixed English apology, which is
    no reply in the Spanish templates. *)
Lemma get_food_suggestions_apology_not_localized :
  ~ (forall W db user_text user_language,
       exists suggestions dietary_preference,
         get_food_suggestions W db user_text user_language
         = Returned (FoodSuggestionService.format_suggestions_response_with_language
                       suggestions dietary_preference user_language)).
Proof.
  intros H.
  destruct (H (world (Returned "SUGGESTION_REQUEST") (Returned [])) catalogue None "es")
    as (suggestions & dietary_preference & Heq).
  change (get_food_suggestions (world (Returned "SUGGESTION_REQUEST") (Returned []))
            catalogue None "es")
    with (@Returned string suggestions_unavailable) in Heq.
  injection Heq as Heq. symmetry in Heq.
  exact (spanish_reply_not_apology suggestions dietary_preference Heq).
Qed.

(** C8, amended. [get_food_suggestions] never raises and never returns an
    empty text, whatever the item queries do. Given a text, it reads the
    preference from it, asks the generator for five suggestions and
    returns [format_suggestions_response_with_language] of them: the reply
    in the templates of the language when it is one of en, es, fr and hi
    (the apology of that language when there is no suggestion, otherwise
    its introduction, the numbered items and its closing question), and
    the reply in the English templates for every other language. Given
    no text, it returns the fixed English apology, whatever the language. *)
Theorem get_food_suggestions_never_raises W db user_language :
  (forall user_text,
     exists dietary_preference suggestions,
       _extract_dietary_preference (Some user_text) = Returned dietary_preference
       /\ FoodSuggestionService.get_suggestions_by_dietary_preference
            W dietary_preference 5 = Returned suggestions
       /\ get_food_suggestions W db (Some user_text) user_language
          = Returned (FoodSuggestionService.format_suggestions_response_with_language
                        suggestions dietary_preference user_language))
  /\ (forall suggestions dietary_preference,
        FoodSuggestionService.format_suggestions_response_with_language
          suggestions dietary_preference user_language <> ""
        /\ (forall messages,
              FoodSuggestionService.language_messages dietary_preference !! user_language
              = Some messages ->
              user_language ∈ ["en"; "es"; "fr"; "hi"]
              /\ FoodSuggestionService.format_suggestions_response_with_language
                   suggestions dietary_preference user_language
                 = match suggestions with
                   | [] => FoodSuggestionService.fallback messages
                   | _ =>
                       FoodSuggestionService.append_items
                         (FoodSuggestionService.intro messages
                          +:+ Py.newline +:+ Py.newline) suggestions
                       +:+ FoodSuggestionService.follow_up messages
                   end)
        /\ (user_language ∈ ["en"; "es"; "fr"; "hi"] ->
            is_Some (FoodSuggestionService.language_messages dietary_preference
                       !! user_language))
        /\ (user_language ∉ ["en"; "es"; "fr"; "hi"] ->
            FoodSuggestionService.format_suggestions_response_with_language
              suggestions dietary_preference user_language
            = FoodSuggestionService.format_suggestions_response_with_language
                suggestions dietary_preference "en"))
  /\ get_food_suggestions W db None user_language = Returned suggestions_unavailable
  /\ suggestions_unavailable <> "".
Proof.
  split; [|split; [|split]].
  - intros user_text. unfold get_food_suggestions.
    destruct (extract_dietary_preference_returns user_text) as [dietary_preference Hp].
    destruct (get_suggestions_returns W dietary_preference 5) as (l & Hl & _).
    exists dietary_preference, (Py.slice_to l 5).
    split; [exact Hp|]. split; [exact Hl|].
    rewrite Hp. cbn [bind]. rewrite Hl. reflexivity.
  - intros suggestions dietary_preference.
    split; [apply format_with_language_nonempty|]. split; [|split].
    + intros messages Hm. split.
      * destruct (decide (user_language ∈ ["en"; "es"; "fr"; "hi"])) as [Hin|Hout];
          [exact Hin|].
        exfalso. unfold FoodSuggestionService.language_messages in Hm.
        rewrite !lookup_insert_ne in Hm
          by (intros <-; apply Hout; list_in).
        rewrite lookup_singleton_ne in Hm; [discriminate|].
        intros <-. apply Hout. list_in.
      * unfold FoodSuggestionService.format_suggestions_response_with_language.
        now rewrite Hm.
    + intros Hin.
      repeat (apply elem_of_cons in Hin as [->|Hin]); [vm_compute; eauto ..|].
      inversion Hin.
    + now apply format_with_language_default.
  - reflexivity.
  - discriminate.
Qed.

Lemma get_food_suggestions_never_raises_witness :
  let W := world (Returned "SUGGESTION_REQUEST") (Raised unreachable) in
  get_food_suggestions W catalogue (Some "suggest me something vegan") "es"
  = Returned "Lo siento, no pude encontrar sugerencias de comida vegan en este momento. Por favor, inténtalo de nuevo más tarde."
  /\ FoodSuggestionService.format_suggestions_response_with_language [] "vegan" "de"
     = FoodSuggestionService.format_suggestions_response_with_language [] "vegan" "en".
Proof.
  cbn zeta.
  destruct (get_food_suggestions_never_raises
              (world (Returned "SUGGESTION_REQUEST") (Raised unreachable))
              catalogue "es") as (Htext & _).
  destruct (get_food_suggestions_never_raises
              (world (Returned "SUGGESTION_REQUEST") (Raised unreachable))
              catalogue "de") as (_ & Hfmt & _).
  split.
  - destruct (Htext "suggest me something vegan")
      as (dietary_preference & suggestions & Hp & Hs & ->).
    vm_compute in Hp. injection Hp as <-.
    vm_compute in Hs. injection Hs as <-.
    vm_compute. reflexivity.
  - destruct (Hfmt [] "vegan") as (_ & _ & _ & Hde). apply Hde. list_not_in.
Defined.

End SuggestionClaims.

(** ** The progression engine *)

Section Progression.

Global Instance order_le_trans : Transitive order_le.
Proof. intros x y z. unfold order_le. lia. Qed.

Global Instance order_le_total : Total order_le.
Proof. intros x y. unfold order_le. lia. Qed.

(** The head of the sorted rows is a row of least rank. *)
Lemma head_order_by_least l r :
  head (order_by_question_order l) = Some r ->
  r ∈ l /\ forall q, q ∈ l -> QuestionMaster.question_order r <= QuestionMaster.question_order q.
Proof.
  unfold order_by_question_order. intros Hhead.
  pose proof (StronglySorted_merge_sort order_le l) as Hsorted.
  pose proof (merge_sort_Permutation order_le l) as Hperm.
  destruct (merge_sort order_le l) as [|x l'] eqn:E; [discriminate|].
  injection Hhead as ->. split.
  - rewrite <- Hperm. apply list_elem_of_here.
  - intros q Hq. rewrite <- Hperm in Hq.
    apply elem_of_cons in Hq as [->|Hq]; [lia|].
    apply StronglySorted_inv in Hsorted as [_ Hall].
    rewrite List.Forall_forall in Hall. apply Hall. now apply list_elem_of_In.
Qed.












End Progression.

(** ** The coordinator *)

Section CoordinatorLemmas.
Variable W : World.

Lemma get_food_suggestions_returns db user_text user_language :
  exists response, get_food_suggestions W db user_text user_language = Returned response.
Proof.
  unfold get_food_suggestions.
  destruct (_extract_dietary_preference user_text) as [dietary_preference|e];
    [|cbn; eauto].
  cbn [bind].
  destruct (get_suggestions_returns W dietary_preference 5) as (l & -> & _).
  cbn. eauto.
Qed.

Lemma handle_suggestion_request_returns db entry_data user_text :
  exists r, _handle_suggestion_request W db entry_data user_text = Returned r.
Proof.
  unfold _handle_suggestion_request.
  destruct (_extract_dietary_preference user_text) as [dietary_preference|e];
    [|cbn; eauto].
  cbn [bind].
  destruct (get_suggestions_returns W dietary_preference 5) as (l & -> & _).
  cbn. eauto.
Qed.

Lemma select_answer_key_returns db question_key answer_key response_text :
  exists k, select_answer_key W db question_key answer_key response_text = Returned k.
Proof.
  unfold select_answer_key.
  destruct (Py.truthy response_text); [|cbn; eauto].
  destruct (GeminiAnalyzer.init W); [|cbn; eauto]. cbn [bind].
  destruct (get_active_answers_for_question db question_key); [cbn; eauto|].
  repeat match goal with |- context [if ?b then _ else _] => destruct b end;
    cbn; eauto.
Qed.

Lemma voice_answer_key_returns db question_key voice_text :
  exists k, voice_answer_key W db question_key voice_text = Returned k.
Proof.
  unfold voice_answer_key.
  destruct (GeminiAnalyzer.init W); [|cbn; eauto]. cbn [bind].
  destruct (get_active_answers_for_question db question_key); cbn; eauto.
Qed.

(** When the classifier raises, the key the caller sent stands. *)
Lemma select_answer_key_fallback db question_key answer_key response_text :
  classifier_raises W response_text (get_active_answers_for_question db question_key) ->
  select_answer_key W db question_key answer_key response_text = Returned answer_key.
Proof.
  intros Hraise. unfold select_answer_key.
  destruct (Py.truthy response_text); [|reflexivity].
  destruct (GeminiAnalyzer.init W) as [[]|e] eqn:Einit; [|reflexivity]. cbn [bind].
  destruct Hraise as [[e He] | [e He]]; [congruence|].
  unfold GeminiAnalyzer.analyze_user_response.
  destruct (get_active_answers_for_question db question_key) as [|a l];
    [reflexivity|].
  rewrite He. reflexivity.
Qed.

Lemma voice_answer_key_fallback db question_key voice_text :
  classifier_raises W voice_text (get_active_answers_for_question db question_key) ->
  voice_answer_key W db question_key voice_text = Returned None.
Proof.
  intros Hraise. unfold voice_answer_key.
  destruct (GeminiAnalyzer.init W) as [[]|e] eqn:Einit; [|reflexivity]. cbn [bind].
  destruct Hraise as [[e He] | [e He]]; [congruence|].
  unfold GeminiAnalyzer.analyze_user_response.
  destruct (get_active_answers_for_question db question_key) as [|a l];
    [reflexivity|].
  rewrite He. reflexivity.
Qed.

(** The select coordinator once the key is resolved to a key that is no
    sentinel: the Recorder, on that key. *)
Lemma process_select_answer_resolved db session_id user_id question_key
    answer_key response_text k :
  select_answer_key W db question_key answer_key response_text = Returned k ->
  k <> Some SORRY_DONT_UNDERSTAND -> k <> Some SUGGESTION_REQUEST ->
  process_select_answer W db session_id user_id question_key answer_key response_text
  = create_conversation_entry W db
      (ConversationEntryCreate.new session_id user_id question_key k None
         response_text "select").
Proof.
  intros Hk H1 H2. unfold process_select_answer. rewrite Hk.
  rewrite (bool_decide_eq_false_2 _ H1), (bool_decide_eq_false_2 _ H2). reflexivity.
Qed.

End CoordinatorLemmas.

Section CoordinatorClaims.

(** C1, as stated, fails: with [OPENAI_API_KEY] set, an active question
    and commits that succeed, a select call whose classification is
    [SORRY_DONT_UNDERSTAND] leaves the table of entries as it was. *)
Lemma process_select_answer_sorry_not_persisted :
  ~ (forall W db session_id user_id question_key answer_key response_text,
       Py.truthy (OPENAI_API_KEY (openai W)) = true ->
       validate_question_key db question_key = true ->
       (forall e, commit_error W e = None) ->
       length (conversation_entries
                 (process_select_answer W db session_id user_id question_key
                    answer_key response_text).2)
       = S (length (conversation_entries db))).
Proof.
  intros H.
  specialize (H (world (Returned "NONE") (Returned [])) catalogue (Some "s1") None
                "dietary_preference" None (Some "asdkjasdkj") eq_refl eq_refl
                (fun _ => eq_refl)).
  vm_compute in H. discriminate H.
Qed.

(** C1, amended. A coordinator call persists at most one entry. When the
    classification is [SORRY_DONT_UNDERSTAND] it persists none, and the
    caller receives a response that is no row of the table (its id is 0)
    with the answer key [SORRY_DONT_UNDERSTAND] and the fixed apology.
    When the key is resolved otherwise (in select mode, to a key other
    than [SUGGESTION_REQUEST] as well), [OPENAI_API_KEY] is set, the
    question key is active and the commit succeeds, it persists exactly
    one. *)
Theorem coordinator_persistence W db session_id user_id question_key
    answer_key response_text voice_text :
  let select :=
    process_select_answer W db session_id user_id question_key answer_key response_text in
  let voice :=
    process_voice_answer W db session_id user_id question_key voice_text response_text in
  (select.2 = db \/ exists e, select.2 = add_entry db e)
  /\ (voice.2 = db \/ exists e, voice.2 = add_entry db e)
  /\ (select_answer_key W db question_key answer_key response_text
      = Returned (Some SORRY_DONT_UNDERSTAND) ->
      exists r,
        select = (Returned r, db)
        /\ ConversationEntryResponse.id r = 0
        /\ ConversationEntryResponse.answer_key r = Some SORRY_DONT_UNDERSTAND
        /\ ConversationEntryResponse.responseText r = Some sorry_message)
  /\ (voice_answer_key W db question_key voice_text
      = Returned (Some SORRY_DONT_UNDERSTAND) ->
      exists r,
        voice = (Returned r, db)
        /\ ConversationEntryResponse.id (conversation_entry r) = 0
        /\ ConversationEntryResponse.answer_key (conversation_entry r)
           = Some SORRY_DONT_UNDERSTAND
        /\ ConversationEntryResponse.responseText (conversation_entry r)
           = Some sorry_message)
  /\ (forall k,
        select_answer_key W db question_key answer_key response_text = Returned k ->
        k <> Some SORRY_DONT_UNDERSTAND -> k <> Some SUGGESTION_REQUEST ->
        Py.truthy (OPENAI_API_KEY (openai W)) = true ->
        validate_question_key db question_key = true ->
        (forall e, commit_error W e = None) ->
        exists r e, select = (Returned r, add_entry db e))
  /\ (forall k,
        voice_answer_key W db question_key voice_text = Returned k ->
        k <> Some SORRY_DONT_UNDERSTAND ->
        Py.truthy (OPENAI_API_KEY (openai W)) = true ->
        validate_question_key db question_key = true ->
        (forall e, commit_error W e = None) ->
        exists r e, voice = (Returned r, add_entry db e)).
Proof.
  cbn zeta.
  destruct (select_answer_key_returns W db question_key answer_key response_text)
    as [ks Hks].
  destruct (voice_answer_key_returns W db question_key voice_text) as [kv Hkv].
  unfold process_select_answer, process_voice_answer. rewrite Hks, Hkv.
  repeat split.
  - destruct (bool_decide (ks = Some SORRY_DONT_UNDERSTAND)); [now left|].
    destruct (bool_decide (ks = Some SUGGESTION_REQUEST)); [now left|].
    apply create_conversation_entry_at_most_one.
  - destruct (bool_decide (kv = Some SORRY_DONT_UNDERSTAND)); [now left|].
    destruct (bool_decide (kv = Some SUGGESTION_REQUEST)).
    + destruct (get_food_suggestions W db voice_text _); [|now left].
      match goal with
      | |- context [create_conversation_entry W db ?d] =>
          pose proof (create_conversation_entry_at_most_one W db d) as Hone;
          destruct (create_conversation_entry W db d) as [r db']
      end.
      exact Hone.
    + match goal with
      | |- context [create_conversation_entry W db ?d] =>
          pose proof (create_conversation_entry_at_most_one W db d) as Hone;
          destruct (create_conversation_entry W db d) as [r db']
      end.
      exact Hone.
  - intros [= ->]. rewrite bool_decide_eq_true_2 by reflexivity.
    eexists. split; [reflexivity|]. repeat split.
  - intros [= ->]. rewrite bool_decide_eq_true_2 by reflexivity.
    eexists. split; [reflexivity|]. repeat split.
  - intros k [= <-] H1 H2 Hkey Hq Hc.
    rewrite (bool_decide_eq_false_2 _ H1), (bool_decide_eq_false_2 _ H2).
    rewrite create_conversation_entry_recorded by (try apply Hc; assumption).
    eauto.
  - intros k [= <-] H1 Hkey Hq Hc. rewrite (bool_decide_eq_false_2 _ H1).
    destruct (bool_decide (kv = Some SUGGESTION_REQUEST)).
    + destruct (get_food_suggestions_returns W db voice_text
                  (get_user_language db session_id)) as [response ->].
      rewrite create_conversation_entry_recorded by (try apply Hc; assumption).
      cbn. eauto.
    + rewrite create_conversation_entry_recorded by (try apply Hc; assumption).
      cbn. eauto.
Qed.

Lemma coordinator_persistence_witness :
  let W := world (Returned "NONE") (Returned []) in
  (exists r,
     process_select_answer W catalogue (Some "s1") None "dietary_preference" None
       (Some "asdkjasdkj") = (Returned r, catalogue)
     /\ ConversationEntryResponse.responseText r = Some sorry_message)
  /\ (exists r e,
        process_voice_answer (world (Returned "vegan_key") (Returned [])) catalogue
          (Some "s1") None "dietary_preference" (Some "plants only") (Some "plants only")
        = (Returned r, add_entry catalogue e)).
Proof.
  cbn zeta. split.
  - destruct (coordinator_persistence (world (Returned "NONE") (Returned [])) catalogue
                (Some "s1") None "dietary_preference" None (Some "asdkjasdkj") None)
      as (_ & _ & H & _).
    destruct (H eq_refl) as (r & Hr & _ & _ & Hmsg). exists r. split; assumption.
  - destruct (coordinator_persistence (world (Returned "vegan_key") (Returned []))
                catalogue (Some "s1") None "dietary_preference" None
                (Some "plants only") (Some "plants only"))
      as (_ & _ & _ & _ & _ & H).
    apply (H (Some "vegan_key"));
      [reflexivity | discriminate | reflexivity | reflexivity |].
    intros e. reflexivity.
Defined.

(** C9, as stated, fails: when the classifier raises in voice mode, the
    turn is recorded with a null answer key and the caller receives the
    recorded row, which carries no message; the outcome of a
    classification as [SORRY_DONT_UNDERSTAND], in which the caller
    receives the apology, is another one. *)
Lemma classifier_failure_is_not_ambiguous :
  ~ (forall W db session_id user_id question_key voice_text response_text,
       Py.truthy (OPENAI_API_KEY (openai W)) = true ->
       validate_question_key db question_key = true ->
       (forall e, commit_error W e = None) ->
       classifier_raises W voice_text (get_active_answers_for_question db question_key) ->
       exists r db',
         process_voice_answer W db session_id user_id question_key voice_text
           response_text = (Returned r, db')
         /\ ConversationEntryResponse.answer_key (conversation_entry r)
            = Some SORRY_DONT_UNDERSTAND
         /\ ConversationEntryResponse.responseText (conversation_entry r)
            = Some sorry_message).
Proof.
  intros H.
  destruct (H (world (Raised unreachable) (Returned [])) catalogue (Some "s1") None
              "dietary_preference" (Some "something green") (Some "something green")
              eq_refl eq_refl (fun _ => eq_refl))
    as (r & db' & Heq & Hkey & _).
  - right. exists unreachable. reflexivity.
  - vm_compute in Heq. injection Heq as <- _. discriminate Hkey.
Qed.

(** C9, amended. When the invocation of the classifier raises, the call
    does not raise for it. In select mode the key the caller sent stands,
    and unless it is a sentinel the call is that of the Recorder on it;
    when no key was sent and the Recorder accepts the turn
    ([OPENAI_API_KEY] set, an active question, a commit that succeeds),
    the turn is recorded with a null answer key. In voice mode the turn
    is likewise recorded with a null answer key, and reported as not
    matched. In neither mode is the apology of the
    [SORRY_DONT_UNDERSTAND] outcome returned: the caller receives the
    recorded row, whose id is not 0 and which carries no message. *)
Theorem classifier_failure_not_propagated W db session_id user_id question_key
    answer_key response_text voice_text :
  let available_answers := get_active_answers_for_question db question_key in
  (classifier_raises W response_text available_answers ->
     select_answer_key W db question_key answer_key response_text = Returned answer_key
     /\ (answer_key <> Some SORRY_DONT_UNDERSTAND ->
         answer_key <> Some SUGGESTION_REQUEST ->
         process_select_answer W db session_id user_id question_key answer_key
           response_text
         = create_conversation_entry W db
             (ConversationEntryCreate.new session_id user_id question_key answer_key
                None response_text "select"))
     /\ (answer_key = None ->
         Py.truthy (OPENAI_API_KEY (openai W)) = true ->
         validate_question_key db question_key = true ->
         (forall e, commit_error W e = None) ->
         exists r e,
           process_select_answer W db session_id user_id question_key answer_key
             response_text = (Returned r, add_entry db e)
           /\ ConversationEntry.answer_key e = None
           /\ ConversationEntryResponse.answer_key r = None
           /\ ConversationEntryResponse.id r = next_id db
           /\ ConversationEntryResponse.responseText r = None))
  /\ (classifier_raises W voice_text available_answers ->
      voice_answer_key W db question_key voice_text = Returned None
      /\ (Py.truthy (OPENAI_API_KEY (openai W)) = true ->
          validate_question_key db question_key = true ->
          (forall e, commit_error W e = None) ->
          exists r e,
            process_voice_answer W db session_id user_id question_key voice_text
              response_text = (Returned r, add_entry db e)
            /\ ConversationEntry.answer_key e = None
            /\ matched r = false
            /\ matched_answer_key r = None
            /\ ConversationEntryResponse.id (conversation_entry r) = next_id db
            /\ ConversationEntryResponse.responseText (conversation_entry r) = None)).
Proof.
  cbn zeta. split.
  - intros Hraise.
    pose proof (select_answer_key_fallback W db question_key answer_key response_text
                  Hraise) as Hk.
    split; [assumption|]. split.
    + intros H1 H2. now apply process_select_answer_resolved.
    + intros -> Hkey Hq Hc.
      rewrite (process_select_answer_resolved W db session_id user_id question_key
                 None response_text None Hk) by discriminate.
      rewrite create_conversation_entry_recorded by (try apply Hc; assumption).
      eexists _, _. split; [reflexivity|]. repeat split.
  - intros Hraise.
    pose proof (voice_answer_key_fallback W db question_key voice_text Hraise) as Hk.
    split; [assumption|]. intros Hkey Hq Hc.
    unfold process_voice_answer. rewrite Hk.
    rewrite !bool_decide_eq_false_2 by discriminate.
    rewrite create_conversation_entry_recorded by (try apply Hc; assumption).
    cbn. eexists _, _. split; [reflexivity|]. repeat split.
Qed.

Lemma classifier_failure_not_propagated_witness :
  let W := world (Raised unreachable) (Returned []) in
  process_select_answer W catalogue (Some "s1") None "dietary_preference"
    (Some "veg_key") (Some "something green")
  = create_conversation_entry W catalogue
      (ConversationEntryCreate.new (Some "s1") None "dietary_preference"
         (Some "veg_key") None (Some "something green") "select")
  /\ exists r e,
       process_voice_answer W catalogue (Some "s1") None "dietary_preference"
         (Some "something green") (Some "something green")
       = (Returned r, add_entry catalogue e)
       /\ ConversationEntry.answer_key e = None
       /\ matched r = false
       /\ matched_answer_key r = None
       /\ ConversationEntryResponse.id (conversation_entry r) = next_id catalogue
       /\ ConversationEntryResponse.responseText (conversation_entry r) = None.
Proof.
  cbn zeta.
  destruct (classifier_failure_not_propagated (world (Raised unreachable) (Returned []))
              catalogue (Some "s1") None "dietary_preference" (Some "veg_key")
              (Some "something green") (Some "something green")) as [Hs Hv].
  assert (Hraise : classifier_raises (world (Raised unreachable) (Returned []))
                     (Some "something green")
                     (get_active_answers_for_question catalogue "dietary_preference")).
  { right. exists unreachable. reflexivity. }
  split.
  - destruct (Hs Hraise) as (_ & H & _). apply H; discriminate.
  - destruct (Hv Hraise) as (_ & H).
    apply H; [reflexivity | reflexivity |]. intros e. reflexivity.
Defined.

End CoordinatorClaims.

(** ** The model on concrete inputs *)

Example lower_ex : Py.lower "Non-Veg 1" = "non-veg 1".
Proof. reflexivity. Qed.

Example strip_ex : Py.strip "  pure veg
 " = "pure veg".
Proof. reflexivity. Qed.

Example ratio_ex1 : difflib.SequenceMatcher_ratio "veg" "vegetarian" = (6 # 13)%Q.
Proof. vm_compute. reflexivity. Qed.

Example ratio_ex2 : difflib.SequenceMatcher_ratio "abxcd" "abcd" = (8 # 9)%Q.
Proof. vm_compute. reflexivity. Qed.

Example ratio_ex3 : difflib.SequenceMatcher_ratio "" "" = 1%Q.
Proof. reflexivity. Qed.

(** A key sent with no free text goes to the Recorder as it is. *)
Example select_direct_key :
  exists r e,
    process_select_answer (world (Returned "NONE") (Returned [])) catalogue
      (Some "s1") None "dietary_preference" (Some "veg_key") None
    = (Returned r, add_entry catalogue e)
    /\ ConversationEntry.answer_key e = Some "veg_key"
    /\ ConversationEntry.select_type e = Some "select".
Proof. eexists _, _. split; [reflexivity|]. split; reflexivity. Qed.

(** A key of another question is recorded as no key. *)
Example recorder_downgrades_stale_key :
  exists r e,
    create_conversation_entry (world (Returned "NONE") (Returned [])) catalogue
      (ConversationEntryCreate.new None None "dietary_preference" (Some "stale_key")
         (Some "something else") None "select")
    = (Returned r, add_entry catalogue e)
    /\ ConversationEntry.answer_key e = None
    /\ ConversationEntry.custom_input e = Some "something else".
Proof. eexists _, _. split; [reflexivity|]. split; reflexivity. Qed.

(** A request for suggestions by voice is recorded with the text of the
    suggestions; the sentinel is no answer of the question, so the
    recorded key is null. *)
Example voice_suggestion_recorded :
  exists r e,
    process_voice_answer
      (world (Returned "SUGGESTION_REQUEST")
             (Returned [ {| row0 := Some "Paneer Tikka"; row1 := None;
                            row2 := Some {| num_str := "9.5"; num_truthy := true |};
                            row3 := Some "Starter" |} ]))
      catalogue (Some "s1") None "dietary_preference"
      (Some "suggest me something") (Some "suggest me something")
    = (Returned r, add_entry catalogue e)
    /\ matched_answer_key r = Some SUGGESTION_REQUEST
    /\ user_language r = "es"
    /\ ConversationEntry.answer_key e = None
    /\ Py.truthy (ConversationEntry.response_text e) = true.
Proof. eexists _, _. split; [vm_compute; reflexivity|]. repeat split. Qed.

(** * Further properties *)

(** ** Scores *)

Section ScoreBounds.

(** The blocks found in a range fit in it, on either side. *)
Lemma matched_size_le a b fuel :
  forall alo ahi blo bhi,
    (alo <= ahi)%nat -> (blo <= bhi)%nat ->
    (difflib.matched_size a b fuel alo ahi blo bhi <= ahi - alo
     /\ difflib.matched_size a b fuel alo ahi blo bhi <= bhi - blo)%nat.
Proof.
  induction fuel as [|fuel IH]; intros alo ahi blo bhi Ha Hb;
    cbn [difflib.matched_size]; [lia|].
  pose proof (find_longest_match_within a b alo ahi blo bhi Ha Hb) as Hw.
  destruct (difflib.find_longest_match a b alo ahi blo bhi) as [[i j] k].
  unfold within in Hw. cbn in Hw.
  destruct (k =? 0)%nat; [lia|].
  assert (Hl : (difflib.matched_size a b fuel alo i blo j <= i - alo
                /\ difflib.matched_size a b fuel alo i blo j <= j - blo)%nat)
    by (apply IH; lia).
  assert (Hr : (difflib.matched_size a b fuel (i + k) ahi (j + k) bhi <= ahi - (i + k)
                /\ difflib.matched_size a b fuel (i + k) ahi (j + k) bhi
                   <= bhi - (j + k))%nat)
    by (apply IH; lia).
  destruct (_ && _); destruct (_ && _); lia.
Qed.

Lemma ratio_bounds a b : (0 <= difflib.ratio a b <= 1)%Q.
Proof.
  unfold difflib.ratio.
  destruct (Z.of_nat (length a + length b)) as [|len|len] eqn:E;
    [split; discriminate | | split; discriminate].
  destruct (matched_size_le a b (S (length a)) 0 (length a) 0 (length b))
    as [H1 H2]; [lia..|].
  fold (difflib.matches a b) in H1, H2.
  unfold Qle. cbn [Qnum Qden]. split; lia.
Qed.

Lemma calculate_similarity_bounds text1 text2 :
  (0 <= calculate_similarity text1 text2 <= 1)%Q.
Proof. unfold calculate_similarity, difflib.SequenceMatcher_ratio. apply ratio_bounds. Qed.

Lemma answer_score_bounds voice_text a : (0 <= answer_score voice_text a <= 1)%Q.
Proof.
  destruct (answer_score_greatest voice_text a) as [_ (t & _ & ->)].
  apply calculate_similarity_bounds.
Qed.

(** X1. Every score the matcher compares lies between 0 and 1, whatever
    the two texts are. *)
Theorem similarity_between_0_and_1 voice_text a text :
  (0 <= calculate_similarity voice_text text <= 1)%Q
  /\ (0 <= answer_score voice_text a <= 1)%Q.
Proof.
  split; [apply calculate_similarity_bounds | apply answer_score_bounds].
Qed.

End ScoreBounds.

(** ** The matcher, for every threshold *)

Section MatcherAnyThreshold.

(** What the loop holds after any answers, whatever the threshold. *)
Lemma match_loop_sound voice_text threshold l :
  let st := foldl (match_step voice_text threshold) (None, 0%Q) l in
  st = (None, 0%Q)
  \/ exists a, a ∈ l
               /\ st = (Some (AnswerMaster.answer_key a), answer_score voice_text a)
               /\ (threshold <= answer_score voice_text a)%Q
               /\ (0 < answer_score voice_text a)%Q.
Proof.
  induction l as [|x l IH] using rev_ind; cbn zeta; [now left|].
  rewrite match_loop_snoc. cbn zeta in IH.
  destruct IH as [-> | (a & Ha & -> & Hthr & Hpos)]; unfold match_step; cbn [snd].
  - destruct (Qltb 0 (answer_score voice_text x)) eqn:E1; [|now left].
    destruct (Qle_bool threshold (answer_score voice_text x)) eqn:E2; [|now left].
    right. exists x. split; [apply elem_of_app; right; apply list_elem_of_here|].
    split; [reflexivity|]. split; [now apply Qle_bool_iff | now apply Qltb_lt].
  - destruct (Qltb (answer_score voice_text a) (answer_score voice_text x)) eqn:E1;
      [destruct (Qle_bool threshold (answer_score voice_text x)) eqn:E2|]; cbn [andb].
    + right. exists x. split; [apply elem_of_app; right; apply list_elem_of_here|].
      split; [reflexivity|]. split; [now apply Qle_bool_iff|].
      apply Qltb_lt in E1. eapply Qlt_trans; eauto.
    + right. exists a. split; [apply elem_of_app; now left|]. auto.
    + right. exists a. split; [apply elem_of_app; now left|]. auto.
Qed.

Lemma match_voice_to_answer_sound db voice_text question_key threshold k :
  match_voice_to_answer db voice_text question_key threshold = Some k ->
  exists a, a ∈ answer_masters db
            /\ AnswerMaster.answer_key a = k
            /\ AnswerMaster.question_key a = question_key
            /\ AnswerMaster.is_active a = true
            /\ (threshold <= answer_score voice_text a)%Q
            /\ (0 < answer_score voice_text a)%Q.
Proof.
  unfold match_voice_to_answer.
  set (answers := filter (active_answer_of question_key) (answer_masters db)).
  pose proof (match_loop_sound voice_text threshold answers) as Hinv. cbn zeta in Hinv.
  destruct answers as [|a0 l] eqn:E; [discriminate|]. rewrite <- E in *.
  destruct Hinv as [-> | (a & Ha & -> & Hthr & Hpos)]; [discriminate|].
  intros [= <-]. exists a. subst answers.
  apply list_elem_of_filter in Ha as [[Hq Hact] Hin]. auto 7.
Qed.

(** X2. A key the matcher returns, for any threshold, is the key of an
    active answer of the question, so the Recorder accepts it; the score
    of that answer reaches the threshold and is above 0. *)
Theorem match_voice_to_answer_returns_valid_key db voice_text question_key threshold k :
  match_voice_to_answer db voice_text question_key threshold = Some k ->
  validate_answer_key db k question_key = true
  /\ exists a, a ∈ answer_masters db
               /\ AnswerMaster.answer_key a = k
               /\ AnswerMaster.question_key a = question_key
               /\ AnswerMaster.is_active a = true
               /\ (threshold <= answer_score voice_text a)%Q
               /\ (0 < answer_score voice_text a)%Q.
Proof.
  intros H. destruct (match_voice_to_answer_sound _ _ _ _ _ H)
    as (a & Hin & Hk & Hq & Hact & Hthr & Hpos).
  split; [|exists a; auto 7].
  apply validate_answer_key_elem. exists a. auto.
Qed.

Lemma match_voice_to_answer_returns_valid_key_witness :
  validate_answer_key catalogue "nonveg_key" "dietary_preference" = true.
Proof.
  apply (match_voice_to_answer_returns_valid_key catalogue "non veg"
           "dietary_preference" default_threshold "nonveg_key").
  vm_compute. reflexivity.
Defined.

(** X3. With a threshold above 1 the matcher returns no key, whatever the
    utterance and the catalogue. *)
Theorem match_voice_to_answer_threshold_above_1 db voice_text question_key threshold :
  (1 < threshold)%Q ->
  match_voice_to_answer db voice_text question_key threshold = None.
Proof.
  intros Hthr.
  destruct (match_voice_to_answer db voice_text question_key threshold) as [k|] eqn:E;
    [|reflexivity].
  destruct (match_voice_to_answer_sound _ _ _ _ _ E) as (a & _ & _ & _ & _ & Hge & _).
  destruct (answer_score_bounds voice_text a) as [_ Hle].
  exfalso. apply (Qlt_not_le _ _ Hthr). eapply Qle_trans; eauto.
Qed.

Lemma match_voice_to_answer_threshold_above_1_witness :
  match_voice_to_answer catalogue "vegan" "dietary_preference" (11 # 10) = None.
Proof. apply match_voice_to_answer_threshold_above_1. reflexivity. Defined.

End MatcherAnyThreshold.

(** ** Blank utterances and the case of answer texts *)

Section MatcherEdges.







(** X5. The score of an answer does not depend on the case of the letters
    A to Z of its text: two answer texts that differ in the case of such
    letters only have the same variations and the same score against
    every utterance. *)
Theorem answer_score_answer_text_case voice_text a a' :
  ascii_recased (AnswerMaster.answer_text a) (AnswerMaster.answer_text a') ->
  get_common_variations (AnswerMaster.answer_text a)
  = get_common_variations (AnswerMaster.answer_text a')
  /\ answer_score voice_text a = answer_score voice_text a'.
Proof.
  intros H. pose proof (lower_recased _ _ H) as Hl.
  assert (Hv : get_common_variations (AnswerMaster.answer_text a)
               = get_common_variations (AnswerMaster.answer_text a')).
  { unfold get_common_variations. now rewrite Hl. }
  split; [assumption|].
  unfold answer_score, calculate_similarity. now rewrite Hv, Hl.
Qed.

Lemma answer_score_answer_text_case_witness :
  answer_score "veggie" (answer 1 "veg_key" "dietary_preference" "Vegetarian" true)
  = answer_score "veggie" (answer 9 "k" "q" "VEGETARIAN" false).
Proof.
  apply answer_score_answer_text_case. cbn. repeat constructor.
Defined.

(** X6. When the match route reports a match, it reports the key of an
    answer row together with the text of a row of that key, never a
    missing text; when it reports none, key and text are both absent. *)
Theorem match_answer_route_text_present db question_key voice_text :
  let r := match_answer_route db question_key voice_text in
  (ma_matched r = true ->
   exists k a, ma_answer_key r = Some k /\ k <> ""
               /\ validate_answer_key db k question_key = true
               /\ a ∈ answer_masters db /\ AnswerMaster.answer_key a = k
               /\ ma_answer_text r = Some (AnswerMaster.answer_text a))
  /\ (ma_matched r = false ->
      ma_answer_key r = None /\ ma_answer_text r = None
      /\ ma_message r = Some "Could not match voice input to any answer").
Proof.
  cbn zeta. unfold match_answer_route.
  destruct (match_voice_to_answer db voice_text question_key default_threshold)
    as [k|] eqn:E; cbn [Py.truthy].
  - destruct (Py.truthy_str k) eqn:Et; cbn; split; try discriminate; [|auto].
    intros _.
    destruct (match_voice_to_answer_sound _ _ _ _ _ E)
      as (a & Hin & Hk & Hq & Hact & _ & _).
    destruct (head (filter (fun a0 => Some (AnswerMaster.answer_key a0) = Some k)
                      (answer_masters db))) as [a1|] eqn:Eh.
    + apply head_Some_elem_of in Eh.
      apply list_elem_of_filter in Eh as [[= Hk1] Hin1].
      exists k, a1. repeat split; try assumption; [now destruct k|].
      apply validate_answer_key_elem. exists a. auto.
    + exfalso. destruct (filter _ _) as [|y l] eqn:Ef; [|discriminate].
      assert (Hc : a ∈ @nil AnswerMaster.t); [|inversion Hc].
      rewrite <- Ef. apply list_elem_of_filter. split; [congruence | assumption].
  - cbn. split; [discriminate | auto].
Qed.

Lemma match_answer_route_text_present_witness :
  (exists t, ma_answer_text (match_answer_route catalogue "dietary_preference" "veggie")
             = Some t)
  /\ ma_answer_key (match_answer_route catalogue "dietary_preference" "asdkjasdkj") = None.
Proof.
  destruct (match_answer_route_text_present catalogue "dietary_preference" "veggie")
    as [H _].
  destruct (match_answer_route_text_present catalogue "dietary_preference" "asdkjasdkj")
    as [_ H'].
  split.
  - destruct (H eq_refl) as (k & a & _ & _ & _ & _ & _ & Ht). eauto.
  - apply H'. reflexivity.
Defined.

End MatcherEdges.

(** ** Validators and analyzers *)

Section Validation.

Lemma active_answers_keys db question_key k :
  k ∈ (opt_answer_key <$> get_active_answers_for_question db question_key)
  <-> validate_answer_key db k question_key = true.
Proof.
  unfold get_active_answers_for_question. rewrite <- list_fmap_compose.
  rewrite validate_answer_key_elem. split.
  - intros (a & -> & Ha)%list_elem_of_fmap.
    apply list_elem_of_filter in Ha as [[Hq Hact] Hin]. exists a. auto.
  - intros (a & Hin & Hk & Hq & Hact). apply list_elem_of_fmap.
    exists a. split; [now rewrite <- Hk|]. apply list_elem_of_filter. now split.
Qed.

(** X7. The keys [get_active_answers_for_question] offers for a question
    are exactly the keys [validate_answer_key] accepts for it, so the
    Recorder keeps a non-empty key of a turn when it is one of the keys
    offered for the question of the turn, and records null otherwise. *)
Theorem offered_keys_are_the_kept_keys db entry_data k :
  ConversationEntryCreate.answer_key entry_data = Some k ->
  k <> "" ->
  let offered :=
    opt_answer_key <$> get_active_answers_for_question db
                         (ConversationEntryCreate.question_key entry_data) in
  (k ∈ offered <->
   validate_answer_key db k (ConversationEntryCreate.question_key entry_data) = true)
  /\ (k ∈ offered -> checked_answer_key db entry_data = Some k)
  /\ (k ∉ offered -> checked_answer_key db entry_data = None).
Proof.
  intros Hk Hne. cbn zeta.
  assert (Ht : Py.truthy_str k = true) by now destruct k.
  split; [apply active_answers_keys|]. unfold checked_answer_key. rewrite Hk, Ht. split.
  - intros Hin. apply active_answers_keys in Hin. now rewrite Hin.
  - intros Hnin.
    destruct (validate_answer_key db k _) eqn:E; [|reflexivity].
    exfalso. apply Hnin. now apply active_answers_keys.
Qed.

Lemma offered_keys_are_the_kept_keys_witness :
  checked_answer_key catalogue
    (ConversationEntryCreate.new None None "dietary_preference" (Some "vegan_key")
       None None "select") = Some "vegan_key"
  /\ checked_answer_key catalogue
       (ConversationEntryCreate.new None None "dietary_preference" (Some "italian_key")
          None None "select") = None.
Proof.
  split.
  - destruct (offered_keys_are_the_kept_keys catalogue
                (ConversationEntryCreate.new None None "dietary_preference"
                   (Some "vegan_key") None None "select") "vegan_key" eq_refl)
      as (_ & H & _); [discriminate|].
    apply H. list_in.
  - destruct (offered_keys_are_the_kept_keys catalogue
                (ConversationEntryCreate.new None None "dietary_preference"
                   (Some "italian_key") None None "select") "italian_key" eq_refl)
      as (_ & _ & H); [discriminate|].
    apply H. list_not_in.
Defined.

(** X8. The question route answers 404 exactly for the keys the Recorder
    rejects; otherwise it returns an active question of that key, and the
    answers it lists are all the answer rows of the key, the inactive
    ones included, so every key offered to the classifier is listed. *)
Theorem get_question_details_found db question_key :
  (validate_question_key db question_key = false ->
   get_question_details db question_key
   = HTTPException 404 ("Question not found: " +:+ question_key))
  /\ (validate_question_key db question_key = true ->
      exists body,
        get_question_details db question_key = Ok body
        /\ qr_question_key body = question_key
        /\ (forall k,
              k ∈ (ar_answer_key <$> qr_answers body)
              <-> exists a, a ∈ answer_masters db
                            /\ AnswerMaster.question_key a = question_key
                            /\ AnswerMaster.answer_key a = k)
        /\ (forall k,
              k ∈ (opt_answer_key <$> get_active_answers_for_question db question_key) ->
              k ∈ (ar_answer_key <$> qr_answers body))).
Proof.
  unfold get_question_details, get_question_with_answers, validate_question_key.
  destruct (head (filter (active_question question_key) (question_masters db)))
    as [q|] eqn:E; split; try discriminate; [|reflexivity].
  intros _. apply head_Some_elem_of in E.
  apply list_elem_of_filter in E as [[Hk Hact] Hin].
  eexists. split; [reflexivity|]. split; [exact Hk|].
  assert (Hlisted : forall k,
             k ∈ (ar_answer_key <$> qr_answers (QuestionResponse_from_orm db q))
             <-> exists a, a ∈ answer_masters db
                           /\ AnswerMaster.question_key a = question_key
                           /\ AnswerMaster.answer_key a = k).
  { intros k. cbn [qr_answers QuestionResponse_from_orm].
    rewrite <- list_fmap_compose, Hk. split.
    - intros (a & -> & Ha)%list_elem_of_fmap.
      apply list_elem_of_filter in Ha as [Hq Ha]. exists a. auto.
    - intros (a & Ha & Hq & <-). apply list_elem_of_fmap. exists a.
      split; [reflexivity|]. now apply list_elem_of_filter. }
  split; [exact Hlisted|].
  intros k Hoffered. apply Hlisted. apply active_answers_keys in Hoffered.
  apply validate_answer_key_elem in Hoffered as (a & Ha & Hak & Hq & _). eauto.
Qed.

Lemma get_question_details_found_witness :
  get_question_details catalogue "retired_question"
  = HTTPException 404 "Question not found: retired_question"
  /\ exists body, get_question_details catalogue "cuisine_type" = Ok body
                  /\ qr_question_key body = "cuisine_type".
Proof.
  destruct (get_question_details_found catalogue "retired_question") as [H _].
  destruct (get_question_details_found catalogue "cuisine_type") as [_ H'].
  split; [apply H; reflexivity|].
  destruct (H' eq_refl) as (body & Hb & Hk & _). eauto.
Defined.

(** X9. On the answers of a question, the Gemini analyzer returns nothing,
    a sentinel, or a key that [validate_answer_key] accepts for the
    question: a key it returns is never downgraded by the Recorder. *)
Theorem gemini_key_is_valid W db user_text question_key k :
  GeminiAnalyzer.analyze_user_response W user_text question_key
    (get_active_answers_for_question db question_key) = Some k ->
  k = SORRY_DONT_UNDERSTAND \/ k = SUGGESTION_REQUEST
  \/ validate_answer_key db k question_key = true.
Proof.
  unfold GeminiAnalyzer.analyze_user_response.
  destruct (get_active_answers_for_question db question_key) as [|a l] eqn:E;
    [discriminate|]. rewrite <- E.
  destruct (generate_content W _) as [text|e]; [|discriminate].
  intros [= <-]. unfold GeminiAnalyzer.validate_answer.
  destruct (bool_decide _) eqn:Ein.
  - right. right. apply bool_decide_eq_true_1 in Ein. now apply active_answers_keys.
  - repeat destruct (bool_decide _); auto.
Qed.

Lemma gemini_key_is_valid_witness :
  "vegan_key" = SORRY_DONT_UNDERSTAND \/ "vegan_key" = SUGGESTION_REQUEST
  \/ validate_answer_key catalogue "vegan_key" "dietary_preference" = true.
Proof.
  apply (gemini_key_is_valid (world (Returned " vegan_key ") (Returned [])) catalogue
           (Some "plants only")).
  reflexivity.
Defined.

Lemma openai_key_is_valid O db user_text question_key k :
  OpenAIAnalyzer.analyze_user_response O user_text question_key
    (get_active_answers_for_question db question_key) = Some k ->
  validate_answer_key db k question_key = true.
Proof.
  unfold OpenAIAnalyzer.analyze_user_response.
  destruct (get_active_answers_for_question db question_key) as [|a l] eqn:E;
    [discriminate|]. rewrite <- E.
  destruct (chat_completion O _) as [content|e]; [|discriminate].
  destruct (bool_decide (Py.strip content ∈ _)) eqn:Ein.
  - intros [= <-]. apply bool_decide_eq_true_1 in Ein. now apply active_answers_keys.
  - intros H. destruct (bool_decide (Py.strip content = "NONE")) in H; discriminate H.
Qed.

(** X10. [analyze_text_only] raises a [ValueError] when [OPENAI_API_KEY]
    is not set, and otherwise when the question key is unknown or
    inactive; in every other case it returns, and what it returns is
    nothing or a key that [validate_answer_key] accepts for the question
    (a model text that is no candidate key, [NONE] or a failure of the
    call all give nothing). *)
Theorem analyze_text_only_outcome O db question_key user_text :
  (Py.truthy (OPENAI_API_KEY O) = false ->
   analyze_text_only O db question_key user_text
   = Raised (ValueError "OPENAI_API_KEY not found in environment variables"))
  /\ (Py.truthy (OPENAI_API_KEY O) = true ->
      validate_question_key db question_key = false ->
      analyze_text_only O db question_key user_text
      = Raised (ValueError ("Invalid question key: " +:+ question_key)))
  /\ (Py.truthy (OPENAI_API_KEY O) = true ->
      validate_question_key db question_key = true ->
      exists r,
        analyze_text_only O db question_key user_text = Returned r
        /\ forall k, r = Some k -> validate_answer_key db k question_key = true).
Proof.
  unfold analyze_text_only, OpenAIAnalyzer.init. repeat split.
  - intros ->. reflexivity.
  - intros -> ->. reflexivity.
  - intros -> ->. cbn [bind negb].
    destruct (get_active_answers_for_question db question_key) as [|a l] eqn:E.
    + eexists. split; [reflexivity|]. discriminate.
    + eexists. split; [reflexivity|]. rewrite <- E. apply openai_key_is_valid.
Qed.

Lemma analyze_text_only_outcome_witness :
  let O := {| OPENAI_API_KEY := Some "sk"; chat_completion := fun _ => Returned "veg_key" |} in
  analyze_text_only {| OPENAI_API_KEY := None; chat_completion := fun _ => Returned "veg_key" |}
    catalogue "dietary_preference" (Some "greens")
  = Raised (ValueError "OPENAI_API_KEY not found in environment variables")
  /\ analyze_text_only O catalogue "retired_question" (Some "greens")
     = Raised (ValueError "Invalid question key: retired_question")
  /\ exists r, analyze_text_only O catalogue "dietary_preference" (Some "greens")
               = Returned r.
Proof.
  cbn zeta. split; [|split].
  - apply (analyze_text_only_outcome
             {| OPENAI_API_KEY := None; chat_completion := fun _ => Returned "veg_key" |}).
    reflexivity.
  - apply (analyze_text_only_outcome
             {| OPENAI_API_KEY := Some "sk"; chat_completion := fun _ => Returned "veg_key" |});
      reflexivity.
  - destruct (analyze_text_only_outcome
                {| OPENAI_API_KEY := Some "sk";
                   chat_completion := fun _ => Returned "veg_key" |}
                catalogue "dietary_preference" (Some "greens")) as (_ & _ & H).
    destruct (H eq_refl eq_refl) as (r & Hr & _). eauto.
Defined.

End Validation.

(** ** The coordinator and its routes *)

Section CoordinatorEdges.
Variable W : World.

(** Whether the key of the caller is kept does not depend on that key. *)
Lemma select_answer_key_shape db question_key response_text :
  (forall answer_key,
     select_answer_key W db question_key answer_key response_text = Returned answer_key)
  \/ (exists k, forall answer_key,
        select_answer_key W db question_key answer_key response_text = Returned k).
Proof.
  unfold select_answer_key.
  destruct (Py.truthy response_text); [|now left].
  destruct (GeminiAnalyzer.init W); [|now left]. cbn [bind].
  destruct (get_active_answers_for_question db question_key); [now left|].
  repeat match goal with |- context [if ?b then _ else _] => destruct b end;
    cbn; eauto.
Qed.

(** X12. The strings null and NULL sent as answer key are treated as no
    key by the select coordinator, whatever else is sent. *)
Theorem process_select_answer_null_string db session_id user_id question_key
    response_text spelling :
  spelling = "null" \/ spelling = "NULL" ->
  process_select_answer W db session_id user_id question_key (Some spelling)
    response_text
  = process_select_answer W db session_id user_id question_key None response_text.
Proof.
  intros Hs. unfold process_select_answer.
  destruct (select_answer_key_shape db question_key response_text) as [H | [k H]].
  - rewrite !H. destruct Hs as [-> | ->]; reflexivity.
  - rewrite !H. destruct Hs as [-> | ->]; reflexivity.
Qed.

Lemma create_conversation_entry_raises db entry_data e db' :
  create_conversation_entry W db entry_data = (Raised e, db') ->
  db' = db
  /\ (e = ValueError "OPENAI_API_KEY not found in environment variables"
      \/ e = ValueError ("Invalid question key: "
                         +:+ ConversationEntryCreate.question_key entry_data)
      \/ exists cause,
           e = ValueError ("Failed to create conversation entry: " +:+ str_exn cause)).
Proof.
  unfold create_conversation_entry, OpenAIAnalyzer.init.
  destruct (Py.truthy (OPENAI_API_KEY (openai W))); [|intros [= <- <-]; auto].
  destruct (negb _); [intros [= <- <-]; auto|].
  destruct (commit_error W _) as [cause|]; [|discriminate].
  intros [= <- <-]. eauto.
Qed.

Lemma format_suggestions_response_nonempty suggestions dietary_preference :
  FoodSuggestionService.format_suggestions_response suggestions dietary_preference <> "".
Proof.
  unfold FoodSuggestionService.format_suggestions_response.
  destruct suggestions; [discriminate|]. apply append_nonempty_r. discriminate.
Qed.

Lemma get_food_suggestions_text db user_text user_language :
  exists response,
    get_food_suggestions W db user_text user_language = Returned response
    /\ response <> "".
Proof.
  unfold get_food_suggestions. destruct user_text as [user_text|].
  - destruct (extract_dietary_preference_returns user_text) as [dietary_preference ->].
    cbn [bind].
    destruct (get_suggestions_returns W dietary_preference 5) as (l & -> & _).
    cbn [bind ret try_except]. eexists. split; [reflexivity|].
    apply format_with_language_nonempty.
  - cbn. eexists. split; [reflexivity | discriminate].
Qed.

Lemma process_select_answer_raises db session_id user_id question_key answer_key
    response_text e db' :
  process_select_answer W db session_id user_id question_key answer_key response_text
  = (Raised e, db') ->
  db' = db
  /\ (e = ValueError "OPENAI_API_KEY not found in environment variables"
      \/ e = ValueError ("Invalid question key: " +:+ question_key)
      \/ exists cause,
           e = ValueError ("Failed to create conversation entry: " +:+ str_exn cause)).
Proof.
  unfold process_select_answer.
  destruct (select_answer_key_returns W db question_key answer_key response_text)
    as [k ->].
  destruct (bool_decide (k = Some SORRY_DONT_UNDERSTAND)); [discriminate|].
  destruct (bool_decide (k = Some SUGGESTION_REQUEST)).
  - match goal with
    | |- context [_handle_suggestion_request W db ?d ?t] =>
        destruct (handle_suggestion_request_returns W db d t) as [r ->]
    end.
    discriminate.
  - intros H. now apply create_conversation_entry_raises in H.
Qed.

Lemma process_voice_answer_raises db session_id user_id question_key voice_text
    response_text e db' :
  process_voice_answer W db session_id user_id question_key voice_text response_text
  = (Raised e, db') ->
  db' = db
  /\ (e = ValueError "OPENAI_API_KEY not found in environment variables"
      \/ e = ValueError ("Invalid question key: " +:+ question_key)
      \/ exists cause,
           e = ValueError ("Failed to create conversation entry: " +:+ str_exn cause)).
Proof.
  unfold process_voice_answer.
  destruct (voice_answer_key_returns W db question_key voice_text) as [k ->].
  destruct (bool_decide (k = Some SORRY_DONT_UNDERSTAND)); [discriminate|].
  destruct (bool_decide (k = Some SUGGESTION_REQUEST)).
  - destruct (get_food_suggestions_returns W db voice_text
                (get_user_language db session_id)) as [response ->].
    match goal with
    | |- context [create_conversation_entry W db ?d] =>
        pose proof (create_conversation_entry_raises db d) as Hr;
        destruct (create_conversation_entry W db d) as [[r|e0] db0]
    end; cbn; [discriminate|].
    intros [= <- <-]. now apply Hr.
  - match goal with
    | |- context [create_conversation_entry W db ?d] =>
        pose proof (create_conversation_entry_raises db d) as Hr;
        destruct (create_conversation_entry W db d) as [[r|e0] db0]
    end; cbn; [discriminate|].
    intros [= <- <-]. now apply Hr.
Qed.

(** X11. Without [OPENAI_API_KEY] the two answer routes never record a
    turn: every call leaves the tables as they were, and every call whose
    key is resolved for the Recorder (in select mode a key that is no
    sentinel, in voice mode any key but [SORRY_DONT_UNDERSTAND]) is
    answered 400 with the message of the analyzer the Recorder builds
    first, whatever the question and the answer are. *)
Theorem recorder_needs_openai_key db session_id user_id question_key answer_key
    responseText voice_text :
  Py.truthy (OPENAI_API_KEY (openai W)) = false ->
  let select :=
    submit_select_answer W db session_id user_id question_key answer_key responseText in
  let voice := submit_voice_answer W db session_id user_id question_key voice_text in
  select.2 = db
  /\ voice.2 = db
  /\ (forall k,
        select_answer_key W db question_key answer_key responseText = Returned k ->
        k <> Some SORRY_DONT_UNDERSTAND -> k <> Some SUGGESTION_REQUEST ->
        select.1 = HTTPException 400 "OPENAI_API_KEY not found in environment variables")
  /\ (forall k,
        voice_answer_key W db question_key voice_text = Returned k ->
        k <> Some SORRY_DONT_UNDERSTAND ->
        voice.1 = HTTPException 400 "OPENAI_API_KEY not found in environment variables").
Proof.
  intros Hkey. cbn zeta.
  unfold submit_select_answer, submit_voice_answer,
    process_select_answer, process_voice_answer.
  destruct (select_answer_key_returns W db question_key answer_key responseText)
    as [ks ->].
  destruct (voice_answer_key_returns W db question_key voice_text) as [kv ->].
  repeat split.
  - destruct (bool_decide (ks = Some SORRY_DONT_UNDERSTAND)); [reflexivity|].
    destruct (bool_decide (ks = Some SUGGESTION_REQUEST)).
    + now destruct (_handle_suggestion_request W db _ responseText).
    + now rewrite create_conversation_entry_no_openai_key.
  - destruct (bool_decide (kv = Some SORRY_DONT_UNDERSTAND)); [reflexivity|].
    destruct (bool_decide (kv = Some SUGGESTION_REQUEST)).
    + destruct (get_food_suggestions W db voice_text _); [|reflexivity].
      now rewrite create_conversation_entry_no_openai_key.
    + now rewrite create_conversation_entry_no_openai_key.
  - intros k [= <-] H1 H2.
    rewrite (bool_decide_eq_false_2 _ H1), (bool_decide_eq_false_2 _ H2).
    now rewrite create_conversation_entry_no_openai_key.
  - intros k [= <-] H1. rewrite (bool_decide_eq_false_2 _ H1).
    destruct (bool_decide (kv = Some SUGGESTION_REQUEST)).
    + destruct (get_food_suggestions_returns W db voice_text
                  (get_user_language db session_id)) as [response ->].
      now rewrite create_conversation_entry_no_openai_key.
    + now rewrite create_conversation_entry_no_openai_key.
Qed.

(** X13. The reads of the tables succeeding, when one of the two answer
    routes answers with an error, the status is 400, nothing was
    recorded, and the detail is that of the analyzer the Recorder could
    not build, of a rejected question key or of a failed commit: a
    failure of the classifier or of the item queries never surfaces, and
    a failed commit is answered as a client error. *)
Theorem answer_routes_errors db session_id user_id question_key answer_key
    responseText voice_text status_code detail db' :
  submit_select_answer W db session_id user_id question_key answer_key responseText
  = (HTTPException status_code detail, db')
  \/ submit_voice_answer W db session_id user_id question_key voice_text
     = (HTTPException status_code detail, db') ->
  status_code = 400 /\ db' = db
  /\ (detail = "OPENAI_API_KEY not found in environment variables"
      \/ detail = "Invalid question key: " +:+ question_key
      \/ exists cause,
           detail = "Failed to create conversation entry: " +:+ str_exn cause).
Proof.
  unfold submit_select_answer, submit_voice_answer. intros [H|H].
  - destruct (process_select_answer W db session_id user_id question_key answer_key
                responseText) as [[r|e] db0] eqn:E; cbn in H; [discriminate|].
    apply process_select_answer_raises in E as [-> [-> | [-> | [cause ->]]]];
      cbn in H; injection H as <- <- <-; eauto 6.
  - destruct (process_voice_answer W db session_id user_id question_key voice_text
                voice_text) as [[r|e] db0] eqn:E; cbn in H; [discriminate|].
    apply process_voice_answer_raises in E as [-> [-> | [-> | [cause ->]]]];
      cbn in H; injection H as <- <- <-; eauto 6.
Qed.

(** X14. In select mode a request for suggestions records nothing: with a
    text the caller receives a response of id 0 whose answer key is
    [SUGGESTION_REQUEST] and whose text is the formatted list, never
    empty; with no text at all the preference cannot be read and the
    caller receives the apology. *)
Theorem select_suggestion_not_recorded db session_id user_id question_key answer_key
    response_text :
  select_answer_key W db question_key answer_key response_text
  = Returned (Some SUGGESTION_REQUEST) ->
  (forall text,
     response_text = Some text ->
     exists r reply,
       process_select_answer W db session_id user_id question_key answer_key
         response_text = (Returned r, db)
       /\ ConversationEntryResponse.id r = 0
       /\ ConversationEntryResponse.answer_key r = Some SUGGESTION_REQUEST
       /\ ConversationEntryResponse.responseText r = Some reply
       /\ reply <> "")
  /\ (response_text = None ->
      process_select_answer W db session_id user_id question_key answer_key
        response_text
      = (Returned (_handle_sorry_response W
                     (ConversationEntryCreate.new session_id user_id question_key
                        (Some SUGGESTION_REQUEST) None None "select")), db)).
Proof.
  intros Hk. unfold process_select_answer. rewrite Hk.
  rewrite bool_decide_eq_false_2 by discriminate.
  rewrite bool_decide_eq_true_2 by reflexivity. split.
  - intros text ->. unfold _handle_suggestion_request.
    destruct (extract_dietary_preference_returns text) as [dietary_preference ->].
    cbn [bind].
    destruct (get_suggestions_returns W dietary_preference 5) as (l & -> & _).
    cbn [bind ret try_except]. eexists _, _. split; [reflexivity|].
    repeat split. apply format_suggestions_response_nonempty.
  - intros ->. reflexivity.
Qed.

(** X15. In voice mode a request for suggestions is recorded: with
    [OPENAI_API_KEY] set, an active question key and a commit that
    succeeds, one entry is appended
    whose response text is the suggestion text, never empty, and whose
    custom input is the utterance; its answer key is null unless the
    question has an active answer spelled [SUGGESTION_REQUEST]; the
    result reports [matched] as true. *)
Theorem voice_suggestion_is_recorded db session_id user_id question_key voice_text
    response_text :
  voice_answer_key W db question_key voice_text = Returned (Some SUGGESTION_REQUEST) ->
  Py.truthy (OPENAI_API_KEY (openai W)) = true ->
  validate_question_key db question_key = true ->
  (forall e, commit_error W e = None) ->
  exists r e reply,
    process_voice_answer W db session_id user_id question_key voice_text response_text
    = (Returned r, add_entry db e)
    /\ get_food_suggestions W db voice_text (get_user_language db session_id)
       = Returned reply
    /\ reply <> ""
    /\ ConversationEntry.response_text e = Some reply
    /\ ConversationEntry.custom_input e = voice_text
    /\ ConversationEntry.select_type e = Some "voice"
    /\ matched r = true
    /\ (validate_answer_key db SUGGESTION_REQUEST question_key = false ->
        ConversationEntry.answer_key e = None).
Proof.
  intros Hk Hkey Hq Hc. unfold process_voice_answer. rewrite Hk.
  rewrite bool_decide_eq_false_2 by discriminate.
  rewrite bool_decide_eq_true_2 by reflexivity.
  destruct (get_food_suggestions_text db voice_text (get_user_language db session_id))
    as (reply & -> & Hne).
  rewrite create_conversation_entry_recorded by (try apply Hc; assumption).
  cbn [bind ret]. eexists _, _, reply. split; [reflexivity|].
  split; [reflexivity|]. split; [assumption|]. split.
  - cbn. destruct reply; [contradiction | reflexivity].
  - repeat split. intros Hv. cbn. unfold checked_answer_key. cbn.
    rewrite bool_decide_eq_false_2 by (intros [?|?]; discriminate).
    cbn. now rewrite Hv.
Qed.

End CoordinatorEdges.

Lemma process_select_answer_null_string_witness :
  process_select_answer (world (Raised unreachable) (Returned [])) catalogue (Some "s1")
    None "dietary_preference" (Some "NULL") (Some "anything")
  = process_select_answer (world (Raised unreachable) (Returned [])) catalogue (Some "s1")
      None "dietary_preference" None (Some "anything").
Proof. apply process_select_answer_null_string. now right. Defined.

Lemma recorder_needs_openai_key_witness :
  submit_select_answer (without_openai_key (world (Returned "NONE") (Returned [])))
    catalogue (Some "s1") None "dietary_preference" (Some "veg_key") None
  = (HTTPException 400 "OPENAI_API_KEY not found in environment variables", catalogue).
Proof.
  destruct (recorder_needs_openai_key
              (without_openai_key (world (Returned "NONE") (Returned [])))
              catalogue (Some "s1") None "dietary_preference" (Some "veg_key") None None
              eq_refl) as (Hdb & _ & Hsel & _).
  specialize (Hsel (Some "veg_key") eq_refl ltac:(discriminate) ltac:(discriminate)).
  destruct (submit_select_answer _ _ _ _ _ _ _) as [res db']. cbn in Hdb, Hsel.
  now subst.
Defined.

Lemma answer_routes_errors_witness :
  exists detail,
    submit_voice_answer (world (Raised unreachable) (Returned [])) catalogue None None
      "retired_question" (Some "greens")
    = (HTTPException 400 detail, catalogue).
Proof.
  destruct (submit_voice_answer (world (Raised unreachable) (Returned [])) catalogue
              None None "retired_question" (Some "greens")) as [[body|code detail] db']
    eqn:E; [vm_compute in E; discriminate E|].
  destruct (answer_routes_errors (world (Raised unreachable) (Returned [])) catalogue
              None None "retired_question" None None (Some "greens") code detail db'
              (or_intror E)) as (-> & -> & _).
  exists detail. reflexivity.
Defined.

Lemma select_suggestion_not_recorded_witness :
  exists r,
    process_select_answer (world (Returned "SUGGESTION_REQUEST") (Raised unreachable))
      catalogue (Some "s1") None "dietary_preference" None (Some "what is good here?")
    = (Returned r, catalogue)
    /\ ConversationEntryResponse.id r = 0.
Proof.
  destruct (select_suggestion_not_recorded
              (world (Returned "SUGGESTION_REQUEST") (Raised unreachable))
              catalogue (Some "s1") None "dietary_preference" None
              (Some "what is good here?") eq_refl) as [H _].
  destruct (H _ eq_refl) as (r & reply & Hr & Hid & _). eauto.
Defined.

Lemma voice_suggestion_is_recorded_witness :
  exists r e,
    process_voice_answer (world (Returned "SUGGESTION_REQUEST") (Raised unreachable))
      catalogue (Some "s1") None "dietary_preference" (Some "suggest me something")
      (Some "suggest me something")
    = (Returned r, add_entry catalogue e)
    /\ ConversationEntry.answer_key e = None.
Proof.
  destruct (voice_suggestion_is_recorded
              (world (Returned "SUGGESTION_REQUEST") (Raised unreachable))
              catalogue (Some "s1") None "dietary_preference"
              (Some "suggest me something") (Some "suggest me something")
              eq_refl eq_refl eq_refl (fun _ => eq_refl))
    as (r & e & reply & Hr & _ & _ & _ & _ & _ & _ & Hkey).
  exists r, e. split; [assumption|]. apply Hkey. reflexivity.
Defined.

(** ** Sessions and history *)

Section SessionsAndHistory.



Global Instance created_le_trans : Transitive created_le.
Proof. intros x y z. unfold created_le. lia. Qed.

Global Instance created_le_total : Total created_le.
Proof. intros x y. unfold created_le. lia. Qed.

Lemma history_elem db session_id r :
  r ∈ get_conversation_history db session_id <->
  exists e, e ∈ conversation_entries db
            /\ ConversationEntry.session_id e = Some session_id
            /\ r = ConversationEntryResponse.from_orm e.
Proof.
  unfold get_conversation_history. cbn zeta. rewrite list_elem_of_fmap.
  split; intros (e & He1 & He2).
  - rewrite merge_sort_Permutation in He2.
    apply list_elem_of_filter in He2 as [Hs Hin]. eauto.
  - destruct He2 as [Hs ->]. exists e. split; [reflexivity|].
    rewrite merge_sort_Permutation. now apply list_elem_of_filter.
Qed.

Lemma history_length db session_id :
  length (get_conversation_history db session_id)
  = length (filter (fun e => ConversationEntry.session_id e = Some session_id)
              (conversation_entries db)).
Proof.
  unfold get_conversation_history. cbn zeta. rewrite length_fmap.
  apply Permutation_length, merge_sort_Permutation.
Qed.


(** X18. Recording a turn for a session adds the response the Recorder
    returned to the history of that session, which grows by one, and
    leaves the history of every other session as it was. *)
Theorem history_after_recording W db entry_data session_id r db' :
  create_conversation_entry W db entry_data = (Returned r, db') ->
  ConversationEntryCreate.session_id entry_data = Some session_id ->
  r ∈ get_conversation_history db' session_id
  /\ length (get_conversation_history db' session_id)
     = S (length (get_conversation_history db session_id))
  /\ (forall other, other <> session_id ->
        get_conversation_history db' other = get_conversation_history db other).
Proof.
  intros (_ & _ & -> & ->)%create_conversation_entry_returned Hs.
  assert (Hsid : ConversationEntry.session_id (entry_row W db entry_data)
                 = Some session_id) by exact Hs.
  split; [|split].
  - apply history_elem. exists (entry_row W db entry_data).
    split; [|auto]. cbn. apply elem_of_app. right. apply list_elem_of_here.
  - rewrite !history_length. cbn [conversation_entries add_entry].
    rewrite filter_app, length_app. cbn [filter list_filter].
    rewrite decide_True by assumption. cbn. lia.
  - intros other Hne. unfold get_conversation_history. cbn [conversation_entries add_entry].
    rewrite filter_app. cbn [filter list_filter].
    rewrite decide_False by congruence. now rewrite app_nil_r.
Qed.

Lemma history_after_recording_witness :
  exists r db',
    create_conversation_entry (world (Returned "NONE") (Returned [])) catalogue
      (ConversationEntryCreate.new (Some "s1") None "dietary_preference"
         (Some "veg_key") None None "select") = (Returned r, db')
    /\ r ∈ get_conversation_history db' "s1"
    /\ get_conversation_history db' "s2" = get_conversation_history catalogue "s2".
Proof.
  eexists _, _. split; [reflexivity|].
  destruct (history_after_recording (world (Returned "NONE") (Returned [])) catalogue
              (ConversationEntryCreate.new (Some "s1") None "dietary_preference"
                 (Some "veg_key") None None "select") "s1" _ _ eq_refl eq_refl)
    as (H1 & _ & H3).
  split; [exact H1|]. apply H3. discriminate.
Defined.


End SessionsAndHistory.

(** ** Suggestions *)

Section SuggestionEdges.
Variable W : World.

(** What every suggestion read from the item tables satisfies is
    satisfied by every suggestion returned. *)
Lemma get_suggestions_forall (P : Suggestion -> Prop) dietary_preference limit :
  (forall source row,
     source ∈ ["Popular Orders"; "Cart Items"; "General"] ->
     P (FoodSuggestionService.suggestion_of_row source row)) ->
  exists l,
    FoodSuggestionService.get_suggestions_by_dietary_preference W dietary_preference limit
    = Returned l
    /\ Forall P l.
Proof.
  intros HP.
  assert (Hread : forall q source d n,
             source ∈ ["Popular Orders"; "Cart Items"; "General"] ->
             exists l, FoodSuggestionService.read_items W q source d n = Returned l
                       /\ Forall P l).
  { intros q source d n Hs. rewrite read_items_returns. eexists. split; [reflexivity|].
    destruct (execute W q d n) as [rows|]; [|constructor].
    apply Forall_fmap, Forall_forall. intros row _. now apply HP. }
  assert (Hslice : forall l, Forall P l -> Forall P (Py.slice_to l limit)).
  { intros l Hl. unfold Py.slice_to. destruct (0 <=? limit); now apply Forall_take. }
  unfold FoodSuggestionService.get_suggestions_by_dietary_preference,
    FoodSuggestionService._get_suggestions_from_orders,
    FoodSuggestionService._get_suggestions_from_cart,
    FoodSuggestionService._get_general_suggestions.
  set (diet_value := default "vegetarian" _).
  destruct (Hread order_items "Popular Orders" diet_value limit) as (l1 & -> & H1);
    [list_in|]. cbn [bind].
  destruct (Z.of_nat (length l1) <? limit) eqn:E1; cbn [bind ret].
  - destruct (Hread cart_items "Cart Items" diet_value (limit - Z.of_nat (length l1)))
      as (l2 & -> & H2); [list_in|]. cbn [bind ret].
    destruct (Z.of_nat (length (l1 ++ l2)) <? limit) eqn:E2; cbn [bind ret].
    + destruct (Hread all_items "General" diet_value
                  (limit - Z.of_nat (length (l1 ++ l2)))) as (l3 & -> & H3); [list_in|].
      cbn [bind ret try_except]. eexists. split; [reflexivity|].
      apply Hslice. repeat (apply Forall_app; split); assumption.
    + cbn [try_except]. eexists. split; [reflexivity|].
      apply Hslice. apply Forall_app; split; assumption.
  - cbn [try_except]. rewrite E1. cbn [bind ret try_except].
    eexists. split; [reflexivity|]. now apply Hslice.
Qed.

(** X19. For a limit that is not negative the generator returns at most
    [limit] suggestions, each read from one of the three item queries
    (none is the static fallback), and no suggestion has an empty name,
    description, price or category: missing columns are replaced by
    their stand-in texts. *)
Theorem get_suggestions_bounded_and_filled dietary_preference limit :
  0 <= limit ->
  exists l,
    FoodSuggestionService.get_suggestions_by_dietary_preference W dietary_preference limit
    = Returned l
    /\ Z.of_nat (length l) <= limit
    /\ forall s, s ∈ l ->
         source s ∈ ["Popular Orders"; "Cart Items"; "General"]
         /\ item_name s <> "" /\ description s <> ""
         /\ price s <> "" /\ category s <> "".
Proof.
  intros Hlimit.
  destruct (get_suggestions_returns W dietary_preference limit) as (l0 & Hl0 & _).
  destruct (get_suggestions_forall
              (fun s => source s ∈ ["Popular Orders"; "Cart Items"; "General"]
                        /\ item_name s <> "" /\ description s <> ""
                        /\ price s <> "" /\ category s <> "")
              dietary_preference limit) as (l & Hl & Hall).
  { intros src row Hsrc. split; [exact Hsrc|].
    unfold FoodSuggestionService.suggestion_of_row, Py.or_else. cbn.
    repeat split.
    - destruct (row0 row) as [[|]|]; cbn; discriminate.
    - destruct (row1 row) as [[|]|]; cbn; discriminate.
    - destruct (row2 row) as [[n []]|]; cbn; discriminate.
    - destruct (row3 row) as [[|]|]; cbn; discriminate. }
  exists l. split; [assumption|]. split.
  - rewrite Hl0 in Hl. injection Hl as <-. unfold Py.slice_to.
    destruct (0 <=? limit) eqn:E; [|lia]. rewrite length_take. lia.
  - intros s Hs. rewrite Forall_forall in Hall. now apply Hall.
Qed.

(** X20. Order items come first: when the query on order items returns
    at least [limit] rows, the suggestions are the first [limit] of them,
    all labelled as popular orders, and neither the cart items nor the
    union is consulted. *)
Theorem get_suggestions_orders_first dietary_preference limit rows :
  0 <= limit ->
  execute W order_items
    (default "vegetarian"
       (FoodSuggestionService.diet_mapping !! Py.lower dietary_preference)) limit
  = Returned rows ->
  limit <= Z.of_nat (length rows) ->
  FoodSuggestionService.get_suggestions_by_dietary_preference W dietary_preference limit
  = Returned (take (Z.to_nat limit)
                (FoodSuggestionService.suggestion_of_row "Popular Orders" <$> rows)).
Proof.
  intros Hlimit Hexec Hlen.
  unfold FoodSuggestionService.get_suggestions_by_dietary_preference,
    FoodSuggestionService._get_suggestions_from_orders.
  rewrite read_items_returns, Hexec. cbn [bind].
  assert (E : (Z.of_nat (length (FoodSuggestionService.suggestion_of_row "Popular Orders"
                                   <$> rows)) <? limit) = false).
  { rewrite length_fmap. apply Z.ltb_ge. lia. }
  rewrite E. cbn [bind ret]. rewrite E. cbn [bind ret try_except].
  unfold Py.slice_to. destruct (0 <=? limit) eqn:E0; [reflexivity|lia].
Qed.

(** X21. [format_suggestions_response] is
    [format_suggestions_response_with_language] in English: the reply of
    the select coordinator is the English reply of the voice one. *)
Theorem format_suggestions_response_is_english suggestions dietary_preference :
  FoodSuggestionService.format_suggestions_response suggestions dietary_preference
  = FoodSuggestionService.format_suggestions_response_with_language
      suggestions dietary_preference "en".
Proof.
  unfold FoodSuggestionService.format_suggestions_response,
    FoodSuggestionService.format_suggestions_response_with_language.
  assert (Hen : FoodSuggestionService.language_messages dietary_preference !! "en"
                = Some {| FoodSuggestionService.intro :=
                            "Here are some great " +:+ dietary_preference
                            +:+ " food suggestions for you:";
                          FoodSuggestionService.fallback :=
                            "Sorry, I couldn't find any " +:+ dietary_preference
                            +:+ " food suggestions at the moment. Please try again later.";
                          FoodSuggestionService.follow_up :=
                            "Would you like to know more about any of these items or need different suggestions?" |})
    by (unfold FoodSuggestionService.language_messages; apply lookup_insert_eq).
  rewrite Hen. cbn [default FoodSuggestionService.intro FoodSuggestionService.fallback
                      FoodSuggestionService.follow_up from_option id].
  destruct suggestions as [|x l]; [reflexivity|].
  f_equal. f_equal. now rewrite !string_app_assoc.
Qed.

(** X22. The preference read from a text is always one of vegan, non-veg
    and veg, each a key of the two dictionaries of the suggestion service;
    it is the same for two texts that differ in the case of letters A to
    Z only, a mention of vegan wins over every other, and with no text
    the scan raises. *)
Theorem extract_dietary_preference_range user_text :
  (exists dietary_preference,
     _extract_dietary_preference (Some user_text) = Returned dietary_preference
     /\ dietary_preference ∈ ["vegan"; "non-veg"; "veg"]
     /\ is_Some (FoodSuggestionService.diet_mapping !! dietary_preference)
     /\ is_Some (FoodSuggestionService.fallback_suggestions !! dietary_preference))
  /\ (forall other, ascii_recased user_text other ->
        _extract_dietary_preference (Some other)
        = _extract_dietary_preference (Some user_text))
  /\ (Py.contains "vegan" (Py.lower user_text) = true ->
      _extract_dietary_preference (Some user_text) = Returned "vegan")
  /\ exists msg, _extract_dietary_preference None = Raised (AttributeError msg).
Proof.
  split; [|split; [|split]].
  - unfold _extract_dietary_preference.
    repeat match goal with |- context [if ?b then _ else _] => destruct b end;
      eexists; (split; [reflexivity|]); (split; [list_in|]);
      split; vm_compute; eauto.
  - intros other H. unfold _extract_dietary_preference.
    now rewrite (lower_recased _ _ H).
  - intros H. unfold _extract_dietary_preference. now rewrite H.
  - eexists. reflexivity.
Qed.

End SuggestionEdges.

Lemma get_suggestions_bounded_and_filled_witness :
  exists l,
    FoodSuggestionService.get_suggestions_by_dietary_preference
      (world (Returned "x")
             (Returned [ {| row0 := None; row1 := None; row2 := None; row3 := None |} ]))
      "veg" 2 = Returned l
    /\ Z.of_nat (length l) <= 2.
Proof.
  destruct (get_suggestions_bounded_and_filled
              (world (Returned "x")
                     (Returned [ {| row0 := None; row1 := None; row2 := None;
                                    row3 := None |} ]))
              "veg" 2) as (l & Hl & Hlen & _); [lia|].
  eauto.
Defined.

Lemma get_suggestions_orders_first_witness :
  FoodSuggestionService.get_suggestions_by_dietary_preference
    (world (Returned "x")
           (Returned [ {| row0 := Some "Dal"; row1 := None; row2 := None; row3 := None |};
                       {| row0 := Some "Roti"; row1 := None; row2 := None; row3 := None |} ]))
    "VEG" 1
  = Returned [ FoodSuggestionService.suggestion_of_row "Popular Orders"
                 {| row0 := Some "Dal"; row1 := None; row2 := None; row3 := None |} ].
Proof.
  rewrite (get_suggestions_orders_first
             (world (Returned "x")
                    (Returned [ {| row0 := Some "Dal"; row1 := None; row2 := None;
                                   row3 := None |};
                                {| row0 := Some "Roti"; row1 := None; row2 := None;
                                   row3 := None |} ]))
             "VEG" 1
             [ {| row0 := Some "Dal"; row1 := None; row2 := None; row3 := None |};
               {| row0 := Some "Roti"; row1 := None; row2 := None; row3 := None |} ]);
    [reflexivity | lia | reflexivity | cbn; lia].
Defined.

Lemma extract_dietary_preference_range_witness :
  _extract_dietary_preference (Some "I am Vegan, no NON-VEG please") = Returned "vegan".
Proof. apply extract_dietary_preference_range. reflexivity. Defined.

(** ** Progression and the classifier's key *)

Section ProgressionEdges.

(** X23. Whatever key it is given (none, empty, unknown, or that of an
    inactive question), the progression engine returns only active
    questions of the table; given a non-empty key it returns a question
    ranked strictly after a question of that key, and nothing when no
    question has the key. *)
Theorem get_next_question_only_active db session_id current_question_key r :
  get_next_question db session_id current_question_key = Some r ->
  r ∈ question_masters db
  /\ QuestionMaster.is_active r = true
  /\ (forall k, current_question_key = Some k -> k <> "" ->
        exists cur, cur ∈ question_masters db
                    /\ QuestionMaster.question_key cur = k
                    /\ QuestionMaster.question_order cur < QuestionMaster.question_order r).
Proof.
  unfold get_next_question. destruct (Py.truthy current_question_key) eqn:Et.
  - destruct (head (filter _ (question_masters db))) as [cur|] eqn:Ec; [|discriminate].
    intros [Hin _]%head_order_by_least.
    apply list_elem_of_filter in Hin as [[Hlt Hact] Hin].
    split; [assumption|]. split; [assumption|].
    intros k -> _. apply head_Some_elem_of in Ec.
    apply list_elem_of_filter in Ec as [[= Hk] Hc]. eauto.
  - intros [Hin _]%head_order_by_least.
    apply list_elem_of_filter in Hin as [Hact Hin].
    split; [assumption|]. split; [assumption|].
    intros k -> Hne. destruct k; [contradiction | discriminate Et].
Qed.

Lemma get_next_question_only_active_witness :
  QuestionMaster.is_active (question 1 "dietary_preference" "What do you prefer?" 1 true)
  = true.
Proof.
  apply (get_next_question_only_active catalogue "s1" (Some "")
           (question 1 "dietary_preference" "What do you prefer?" 1 true)).
  reflexivity.
Defined.

End ProgressionEdges.

Section ClassifierOverride.
Variable W : World.


End ClassifierOverride.


(** ** A text against itself *)

Section SameText.

Lemma b2j_all_snoc (b : list ascii) c :
  difflib.b2j_all (b ++ [c])
  = <[c := (default [] (difflib.b2j_all b !! c) ++ [length b])%list]> (difflib.b2j_all b).
Proof.
  unfold difflib.b2j_all. rewrite imap_app, foldl_app. cbn.
  now rewrite Nat.add_0_r.
Qed.

(** [b2j] before the purge: the positions of each element. *)
Lemma b2j_all_positions (b : list ascii) :
  forall c j,
    j ∈ default [] (difflib.b2j_all b !! c) <-> b !! j = Some c.
Proof.
  induction b as [|x b IH] using rev_ind; intros c j.
  - unfold difflib.b2j_all. cbn. rewrite lookup_empty. cbn. split; intros H; inversion H.
  - rewrite b2j_all_snoc. destruct (decide (x = c)) as [->|Hne].
    + rewrite lookup_insert_eq. cbn [default from_option id].
      rewrite elem_of_app, IH, list_elem_of_singleton. split.
      * intros [H | ->].
        -- now apply lookup_app_l_Some.
        -- rewrite lookup_app_r by lia. now rewrite Nat.sub_diag.
      * intros H. destruct (decide (j < length b)%nat) as [Hlt|Hge].
        -- left. now rewrite lookup_app_l in H.
        -- right. apply lookup_lt_Some in H. rewrite length_app in H. cbn in H. lia.
    + rewrite lookup_insert_ne by assumption. rewrite IH. split.
      * intros H. now apply lookup_app_l_Some.
      * intros H. destruct (decide (j < length b)%nat) as [Hlt|Hge].
        -- now rewrite lookup_app_l in H.
        -- pose proof (lookup_lt_Some _ _ _ H) as Hl. rewrite length_app in Hl.
           cbn in Hl. assert (j = length b) as -> by lia.
           rewrite lookup_app_r in H by lia. rewrite Nat.sub_diag in H.
           cbn in H. congruence.
Qed.

(** A row of the scan of a text against itself records, in the column
    of its own index, one more than the row before it did in the column
    before, and the best match is no shorter. *)
Lemma scan_js_diagonal n i j2len :
  forall js newj2len best,
    (forall j, j ∈ js -> (j < n)%nat) ->
    (newj2len !! i
       = Some (match i with O => 0 | S i' => default 0 (j2len !! i') end + 1)%nat
     /\ (match i with O => 0 | S i' => default 0 (j2len !! i') end + 1
         <= best.2)%nat)
    \/ i ∈ js ->
    (difflib.scan_js 0 n i j2len js newj2len best).1 !! i
      = Some (match i with O => 0 | S i' => default 0 (j2len !! i') end + 1)%nat
    /\ (match i with O => 0 | S i' => default 0 (j2len !! i') end + 1
        <= (difflib.scan_js 0 n i j2len js newj2len best).2.2)%nat.
Proof.
  induction js as [|j js IH]; intros newj2len best Hlt H; cbn [difflib.scan_js].
  - destruct H as [H | H]; [exact H | inversion H].
  - assert (Hj : (j < n)%nat) by (apply Hlt, list_elem_of_here).
    replace (j <? 0)%nat with false by (symmetry; apply Nat.ltb_ge; lia).
    replace (n <=? j)%nat with false by (symmetry; apply Nat.leb_gt; lia).
    cbn zeta. apply IH.
    + intros j' Hj'. apply Hlt. now apply list_elem_of_further.
    + destruct (decide (i = j)) as [->|Hne].
      * left. rewrite lookup_insert_eq. split; [reflexivity|].
        destruct (_ <? _)%nat eqn:E; cbn [snd].
        -- lia.
        -- apply Nat.ltb_ge in E. exact E.
      * destruct H as [[H1 H2] | H].
        -- left. rewrite lookup_insert_ne by congruence. split; [exact H1|].
           destruct (_ <? _)%nat eqn:E; cbn [snd]; [|exact H2].
           apply Nat.ltb_lt in E. lia.
        -- right. apply elem_of_cons in H as [H | H]; [congruence | exact H].
Qed.

Lemma scan_is_diagonal (b : list ascii) m :
  (length b < 200)%nat ->
  forall i j2len best,
    (i + m <= length b)%nat ->
    match i with
    | O => True
    | S i' => j2len !! i' = Some i /\ (i <= best.2)%nat
    end ->
    (i + m <= (difflib.scan_is b b 0 (length b) (seq i m) j2len best).2)%nat.
Proof.
  intros Hshort. induction m as [|m IH]; intros i j2len best Hi Hinv;
    cbn [seq difflib.scan_is].
  - destruct i as [|i']; [lia | destruct Hinv; lia].
  - destruct (lookup_lt_is_Some_2 b i) as [c Hc]; [lia|]. rewrite Hc.
    assert (Hb2j : difflib.b2j b = difflib.b2j_all b).
    { unfold difflib.b2j. cbn zeta.
      now replace (200 <=? length b)%nat with false
        by (symmetry; apply Nat.leb_gt; lia). }
    rewrite Hb2j.
    destruct (scan_js_diagonal (length b) i j2len
                (default [] (difflib.b2j_all b !! c)) ∅ best) as [H1 H2].
    + intros j Hj. apply b2j_all_positions in Hj. now apply lookup_lt_Some in Hj.
    + right. now apply b2j_all_positions.
    + destruct (difflib.scan_js 0 (length b) i j2len _ ∅ best) as [newj2len best'].
      cbn [fst snd] in H1, H2.
      replace (i + S m)%nat with (S i + m)%nat by lia. apply IH; [lia|].
      destruct i as [|i'].
      * split; [exact H1 | exact H2].
      * destruct Hinv as [Hinv _]. rewrite Hinv in H1, H2.
        cbn [default from_option id] in H1, H2.
        replace (S i' + 1)%nat with (S (S i')) in H1, H2 by lia.
        split; [exact H1 | exact H2].
Qed.

(** The longest match of a text shorter than 200 characters with itself
    is the whole text. *)
Lemma find_longest_match_same (b : list ascii) :
  (length b < 200)%nat ->
  difflib.find_longest_match b b 0 (length b) 0 (length b) = (0, 0, length b)%nat.
Proof.
  intros Hshort.
  assert (H0 : difflib.scan_is b b 0 (length b) (seq 0 (length b - 0)) ∅ (0, 0, 0)%nat
               = (0, 0, length b)%nat).
  { rewrite Nat.sub_0_r.
    pose proof (scan_is_diagonal b (length b) Hshort 0 ∅ (0, 0, 0)%nat
                  ltac:(lia) I) as Hge.
    pose proof (scan_is_within b b 0 0 (length b) (length b) 0 ∅ (0, 0, 0)%nat
                  ltac:(lia) ltac:(apply map_Forall_empty)
                  ltac:(unfold within; cbn; lia)) as Hw.
    destruct (difflib.scan_is b b 0 (length b) (seq 0 (length b)) ∅ (0, 0, 0)%nat)
      as [[i j] k].
    unfold within in Hw. cbn in Hw, Hge.
    assert (k = length b) by lia. assert (i = 0%nat) by lia. assert (j = 0%nat) by lia.
    now subst. }
  unfold difflib.find_longest_match. cbn zeta. rewrite H0. cbn [fst snd].
  cbn [difflib.extend_left fst snd Nat.add]. rewrite Nat.sub_diag.
  cbn [difflib.extend_right difflib.extend_left fst snd Nat.add].
  rewrite Nat.sub_diag. reflexivity.
Qed.

Lemma matches_same (b : list ascii) :
  (length b < 200)%nat -> difflib.matches b b = length b.
Proof.
  intros Hshort. unfold difflib.matches. cbn [difflib.matched_size].
  rewrite find_longest_match_same by assumption.
  destruct (length b =? 0)%nat eqn:E.
  - apply Nat.eqb_eq in E. now rewrite E.
  - rewrite Nat.ltb_irrefl. cbn [andb Nat.add].
    rewrite Nat.ltb_irrefl. cbn [andb]. lia.
Qed.

Lemma ratio_same (b : list ascii) :
  (length b < 200)%nat -> (difflib.ratio b b == 1)%Q.
Proof.
  intros Hshort. unfold difflib.ratio. rewrite matches_same by assumption.
  destruct (Z.of_nat (length b + length b)) as [|len|len] eqn:E; [reflexivity | | reflexivity].
  unfold Qeq. cbn [Qnum Qden]. lia.
Qed.

Lemma length_list_ascii_of_string s :
  length (list_ascii_of_string s) = String.length s.
Proof. induction s as [|c s IH]; cbn; [reflexivity | now rewrite IH]. Qed.

Lemma calculate_similarity_same text1 text2 :
  Py.strip (Py.lower text1) = Py.strip (Py.lower text2) ->
  (String.length (Py.strip (Py.lower text2)) < 200)%nat ->
  (calculate_similarity text1 text2 == 1)%Q.
Proof.
  intros Heq Hshort. unfold calculate_similarity, difflib.SequenceMatcher_ratio.
  cbn zeta. rewrite Heq. apply ratio_same. now rewrite length_list_ascii_of_string.
Qed.

Lemma answer_score_same voice_text a :
  Py.strip (Py.lower voice_text) = Py.strip (Py.lower (AnswerMaster.answer_text a)) ->
  (String.length (Py.strip (Py.lower (AnswerMaster.answer_text a))) < 200)%nat ->
  (answer_score voice_text a == 1)%Q.
Proof.
  intros Heq Hshort. apply Qle_antisym; [apply answer_score_bounds|].
  destruct (answer_score_greatest voice_text a) as [Hall _].
  eapply Qle_trans; [|apply (Hall (AnswerMaster.answer_text a))].
  - rewrite (calculate_similarity_same _ _ Heq Hshort). apply Qle_refl.
  - unfold compared_texts. apply list_elem_of_here.
Qed.

(** X25. An utterance that is the text of an active answer of the
    question once both are lower-cased over the letters A to Z and
    stripped of ASCII white space is always matched, when that text is
    shorter than 200 code units and the threshold is in (0, 1]: the
    matcher returns the key of an active answer of the question whose
    score is exactly 1. *)
Theorem match_voice_to_answer_same_text db voice_text question_key threshold a :
  (0 < threshold)%Q -> (threshold <= 1)%Q ->
  a ∈ answer_masters db ->
  active_answer_of question_key a ->
  Py.strip (Py.lower voice_text) = Py.strip (Py.lower (AnswerMaster.answer_text a)) ->
  (String.length (Py.strip (Py.lower (AnswerMaster.answer_text a))) < 200)%nat ->
  exists best,
    match_voice_to_answer db voice_text question_key threshold
      = Some (AnswerMaster.answer_key best)
    /\ best ∈ answer_masters db
    /\ active_answer_of question_key best
    /\ (answer_score voice_text best == 1)%Q.
Proof.
  intros Hpos Hle Hin Hact Heq Hshort. unfold match_voice_to_answer.
  set (answers := filter (active_answer_of question_key) (answer_masters db)).
  assert (Ha : a ∈ answers) by (apply list_elem_of_filter; now split).
  pose proof (answer_score_same voice_text a Heq Hshort) as Hone.
  pose proof (match_loop_invariant voice_text threshold answers Hpos) as Hinv.
  cbn zeta in Hinv.
  destruct answers as [|a0 l] eqn:E; [inversion Ha|]. rewrite <- E in *.
  destruct Hinv as [[Hall _] | (best & (pre & post & Hl & Hpre & Hpost) & Hthr & ->)].
  - exfalso. apply (Qlt_not_le _ _ (Hall a Ha)). now rewrite Hone.
  - exists best. cbn [fst].
    assert (Hb : best ∈ answers)
      by (rewrite Hl; apply elem_of_app; right; apply list_elem_of_here).
    subst answers. apply list_elem_of_filter in Hb as [Hb1 Hb2].
    repeat split; try assumption; try apply Hb1.
    apply Qle_antisym; [apply answer_score_bounds|]. rewrite <- Hone.
    rewrite Hl in Ha. apply elem_of_app in Ha as [Ha | Ha].
    + apply Qlt_le_weak. now apply Hpre.
    + apply elem_of_cons in Ha as [-> | Ha]; [apply Qle_refl | now apply Hpost].
Qed.

Lemma match_voice_to_answer_same_text_witness :
  exists best,
    match_voice_to_answer catalogue "  NON-vegetarian " "dietary_preference"
      default_threshold
      = Some (AnswerMaster.answer_key best)
    /\ best ∈ answer_masters catalogue
    /\ active_answer_of "dietary_preference" best
    /\ (answer_score "  NON-vegetarian " best == 1)%Q.
Proof.
  apply (match_voice_to_answer_same_text catalogue "  NON-vegetarian "
           "dietary_preference" default_threshold
           (answer 2 "nonveg_key" "dietary_preference" "Non-Vegetarian" true)).
  - reflexivity.
  - discriminate.
  - list_in.
  - split; reflexivity.
  - reflexivity.
  - vm_compute. lia.
Defined.

End SameText.

